(** * BOCCO emo MCP server: a shallow embedding of [bocco_mcp_server.py]

    The development follows the Python source function by function.

    - Python values that travel as JSON (response bodies, tool arguments,
      the room directory, the records returned by the client) are values of
      [json].  JSON numbers are integers here: binary floating point is not
      represented.
    - A Python [str] is a [string] holding its UTF-8 bytes, so that the
      literals of the source can be written as they are.  For well-formed
      UTF-8 the substring test on bytes agrees with the one on code points.
    - [datetime] values are integer counts of microseconds from
      1970-01-01T00:00:00 and [timedelta] values are integer microsecond
      differences. The ranges of both types are checked where the source
      builds a [timedelta] from the response and adds it to the clock
      reading; the subtraction of the fixed five-minute margin is exact.
    - The client object is modelled inside its [async with] scope, where
      [self.session] is an open session.
    - Effects are explicit: a state holds the fields of the client object,
      the chronological trace of HTTP requests sent so far and the number of
      clock readings taken so far; exceptions are a second kind of outcome.
      The remote server and the clock are parameters: the server answers as
      a function of the whole trace, the clock as a function of the number
      of earlier readings. *)

From Stdlib Require Import String Ascii List ZArith Bool Lia.
From Stdlib Require Import DecimalString.
Import ListNotations.
Local Open Scope string_scope.
Local Open Scope Z_scope.
Set Warnings "-register-all".

(** ** JSON values and the Python operations the source applies to them *)

Inductive json : Type :=
| JNull
| JBool (b : bool)
| JInt (n : Z)
| JStr (s : string)
| JList (items : list json)
| JDict (fields : list (string * json)).

(** Exceptions that the modelled code can raise. [Exception] carries the
    message given at the [raise] statement of the source; the others are
    raised by built-in operations or by the HTTP library. *)
Inductive exn : Type :=
| Exception (msg : string)
| KeyError (key : json)
| TypeError
| AttributeError
| OverflowError
| ClientError
| ContentTypeError.

Inductive outcome (A : Type) : Type :=
| Ok (a : A)
| Raise (e : exn).
Arguments Ok {A} a.
Arguments Raise {A} e.

(** [needle in hay] on two strings. *)
Fixpoint contains (needle hay : string) : bool :=
  if String.prefix needle hay then true
  else match hay with
       | EmptyString => false
       | String _ rest => contains needle rest
       end.

(** Dictionary lookup; the fields of a dictionary have pairwise distinct
    keys, as in a Python [dict]. *)
Fixpoint lookup (k : string) (fields : list (string * json)) : option json :=
  match fields with
  | [] => None
  | (k', v) :: rest => if String.eqb k k' then Some v else lookup k rest
  end.

(** [d.get(k, default)] on a dictionary. *)
Definition dict_get (fields : list (string * json)) (k : string) (default : json) : json :=
  match lookup k fields with
  | Some v => v
  | None => default
  end.

(** [bool(v)]. *)
Definition truthy (v : json) : bool :=
  match v with
  | JNull => false
  | JBool b => b
  | JInt n => negb (n =? 0)
  | JStr s => negb (String.eqb s "")
  | JList items => match items with [] => false | _ => true end
  | JDict fields => match fields with [] => false | _ => true end
  end.

(** [a == b]. A boolean compares equal to the integer 0 or 1; dictionaries
    compare regardless of the order of their fields. *)
Fixpoint py_eq (a b : json) {struct a} : bool :=
  match a, b with
  | JNull, JNull => true
  | JBool x, JBool y => Bool.eqb x y
  | JBool x, JInt n => n =? (if x then 1 else 0)
  | JInt n, JBool x => n =? (if x then 1 else 0)
  | JInt n, JInt m => n =? m
  | JStr s, JStr t => String.eqb s t
  | JList l, JList m =>
      (fix items_eq (l m : list json) {struct l} : bool :=
         match l, m with
         | [], [] => true
         | x :: l', y :: m' => py_eq x y && items_eq l' m'
         | _, _ => false
         end) l m
  | JDict d, JDict e =>
      Nat.eqb (length d) (length e) &&
      (fix fields_eq (d : list (string * json)) {struct d} : bool :=
         match d with
         | [] => true
         | (k, v) :: d' =>
             match lookup k e with
             | Some v' => py_eq v v'
             | None => false
             end && fields_eq d'
         end) d
  | _, _ => false
  end.

(** The code points of a UTF-8 string, each as a one-character string: a
    byte of the form 10xxxxxx continues the character before it. *)
Definition is_continuation (c : ascii) : bool :=
  let n := nat_of_ascii c in (Nat.leb 128 n) && (Nat.ltb n 192).

Fixpoint utf8_chars (s : string) : list string :=
  match s with
  | EmptyString => []
  | String c rest =>
      let chs := utf8_chars rest in
      match rest with
      | String d _ =>
          if is_continuation d then
            match chs with
            | ch :: chs' => String c ch :: chs'
            | [] => [String c EmptyString]
            end
          else String c EmptyString :: chs
      | EmptyString => String c EmptyString :: chs
      end
  end.

(** [iter(v)]: the items a [for] loop visits. *)
Definition py_iter (v : json) : outcome (list json) :=
  match v with
  | JList items => Ok items
  | JStr s => Ok (map JStr (utf8_chars s))
  | JDict fields => Ok (map (fun kv => JStr (fst kv)) fields)
  | _ => Raise TypeError
  end.

(** [len(v)]. *)
Definition py_len (v : json) : outcome Z :=
  match v with
  | JList items => Ok (Z.of_nat (length items))
  | JStr s => Ok (Z.of_nat (length (utf8_chars s)))
  | JDict fields => Ok (Z.of_nat (length fields))
  | _ => Raise TypeError
  end.

(** [v[0]]; only applied to a truthy [v]. *)
Definition py_first (v : json) : outcome json :=
  match v with
  | JList (x :: _) => Ok x
  | JStr s => match utf8_chars s with
              | ch :: _ => Ok (JStr ch)
              | [] => Raise TypeError
              end
  | JDict _ => Raise (KeyError (JInt 0))
  | _ => Raise TypeError
  end.

(** [v[k]] for a string key. *)
Definition py_getitem (v : json) (k : string) : outcome json :=
  match v with
  | JDict fields => match lookup k fields with
                    | Some x => Ok x
                    | None => Raise (KeyError (JStr k))
                    end
  | _ => Raise TypeError
  end.

Definition is_str (k : string) (v : json) : bool :=
  match v with
  | JStr s => String.eqb s k
  | _ => false
  end.

(** [k in v] for a string [k]. *)
Definition py_in (k : string) (v : json) : outcome bool :=
  match v with
  | JStr s => Ok (contains k s)
  | JList items => Ok (existsb (is_str k) items)
  | JDict fields => Ok (match lookup k fields with Some _ => true | None => false end)
  | _ => Raise TypeError
  end.

(** The range of [timedelta]: from -999999999 days to 999999999 days,
    23:59:59.999999, in microseconds. *)
Definition timedelta_min : Z := - 999999999 * 86400 * 1000000.
Definition timedelta_max : Z := 999999999 * 86400 * 1000000 + 86399999999.

(** The range of [datetime]: from 0001-01-01T00:00:00 to
    9999-12-31T23:59:59.999999, in microseconds from 1970-01-01T00:00:00. *)
Definition datetime_min : Z := - 719162 * 86400 * 1000000.
Definition datetime_max : Z := 2932897 * 86400 * 1000000 - 1.

(** [timedelta(seconds=v)], in microseconds: a value that is not a number
    is a [TypeError], a number of seconds outside the range of [timedelta]
    an [OverflowError]. *)
Definition timedelta_seconds (v : json) : outcome Z :=
  match v with
  | JInt n =>
      if (timedelta_min <=? n * 1000000) && (n * 1000000 <=? timedelta_max)
      then Ok (n * 1000000)
      else Raise OverflowError
  | JBool b => Ok (if b then 1000000 else 0)
  | _ => Raise TypeError
  end.

(** [t + delta] for a [datetime] and a [timedelta]: a result outside the
    range of [datetime] is an [OverflowError]. *)
Definition datetime_add (t delta : Z) : outcome Z :=
  if (datetime_min <=? t + delta) && (t + delta <=? datetime_max)
  then Ok (t + delta)
  else Raise OverflowError.

(** [t + timedelta(seconds=expires_in)] for the clock reading [t]. *)
Definition token_expiry (expires_in : json) (t : Z) : outcome Z :=
  match timedelta_seconds expires_in with
  | Ok delta => datetime_add t delta
  | Raise e => Raise e
  end.

(** [timedelta(minutes=5)]. *)
Definition five_minutes : Z := 5 * 60 * 1000000.

(** [str(n)] for an integer. *)
Definition str_int (n : Z) : string := NilZero.string_of_int (Z.to_int n).

(** ** HTTP requests and responses *)

Inductive http_method : Type := GET | POST.

Record request : Type := mkRequest {
  req_method : http_method;
  req_url : string;
  req_headers : list (string * string);
  req_json : option json
}.

(** What one HTTP call yields: the transport fails, or a response arrives
    with a status and a body; the body is [None] when [response.json()]
    cannot decode it. *)
Inductive http_result : Type :=
| TransportFailure
| Response (status : Z) (body : option json).

(** ** The state: the client object, the request trace, the clock reads *)

Record state : Type := mkState {
  access_token : json;
  token_expires_at : option Z;
  rooms : json;
  default_room_id : json;
  trace : list request;
  ticks : nat
}.

Definition set_access_token (v : json) (w : state) : state :=
  mkState v (token_expires_at w) (rooms w) (default_room_id w) (trace w) (ticks w).
Definition set_token_expires_at (t : Z) (w : state) : state :=
  mkState (access_token w) (Some t) (rooms w) (default_room_id w) (trace w) (ticks w).
Definition set_rooms (v : json) (w : state) : state :=
  mkState (access_token w) (token_expires_at w) v (default_room_id w) (trace w) (ticks w).
Definition set_default_room_id (v : json) (w : state) : state :=
  mkState (access_token w) (token_expires_at w) (rooms w) v (trace w) (ticks w).
Definition push_request (r : request) (w : state) : state :=
  mkState (access_token w) (token_expires_at w) (rooms w) (default_room_id w)
          (trace w ++ [r]) (ticks w).
Definition tick (w : state) : state :=
  mkState (access_token w) (token_expires_at w) (rooms w) (default_room_id w)
          (trace w) (S (ticks w)).

(** [BoccoEmoAPI.__init__]: a new client object; the trace and the clock
    belong to the world and carry over. *)
Definition new_client (w : state) : state :=
  mkState JNull None (JList []) JNull (trace w) (ticks w).

(** ** The monad of the modelled code *)

Definition M (A : Type) : Type := state -> outcome A * state.

Definition ret {A} (a : A) : M A := fun w => (Ok a, w).
Definition bind {A B} (m : M A) (k : A -> M B) : M B :=
  fun w => match m w with
           | (Ok a, w') => k a w'
           | (Raise e, w') => (Raise e, w')
           end.
Definition raise {A} (e : exn) : M A := fun w => (Raise e, w).
Definition lift {A} (o : outcome A) : M A := fun w => (o, w).
Definition gets {A} (f : state -> A) : M A := fun w => (Ok (f w), w).
Definition modify (f : state -> state) : M unit := fun w => (Ok tt, f w).

(** [try: m  except Exception: h]: the handler runs in the state the
    exception left behind. *)
Definition try_except {A} (m : M A) (h : exn -> M A) : M A :=
  fun w => match m w with
           | (Ok a, w') => (Ok a, w')
           | (Raise e, w') => h e w'
           end.

Declare Scope py_scope.
Delimit Scope py_scope with py.
Notation "x <- m ;; k" := (bind m (fun x => k))
  (at level 100, m at next level, right associativity) : py_scope.
Notation "m ;;; k" := (bind m (fun _ => k))
  (at level 100, right associativity) : py_scope.

(** ** A sample environment for the concrete runs

    The concrete runs at the end of the file instantiate the parameters of
    the client with these: lower-casing of the ASCII letters, on which
    every [str.lower] agrees for ASCII text, a [repr] that puts a string
    between single quotes, and a server that answers the n-th request of
    the trace with the n-th entry of a script. *)

Definition ascii_lower_char (c : ascii) : ascii :=
  let n := nat_of_ascii c in
  if Nat.leb 65 n && Nat.leb n 90 then ascii_of_nat (n + 32) else c.

Fixpoint ascii_lower (s : string) : string :=
  match s with
  | EmptyString => EmptyString
  | String c rest => String (ascii_lower_char c) (ascii_lower rest)
  end.

Definition quoted (s : string) : string := "'" ++ s ++ "'".

Definition plain_dumps (v : json) : string := "<json>".

Definition plain_message (e : exn) : string := "<error>".

Definition scripted (script : list http_result) (tr : list request) : http_result :=
  nth (length tr - 1) script TransportFailure.

Definition token_reply (expires_in : Z) : http_result :=
  Response 200 (Some (JDict [("access_token", JStr "T");
                             ("expires_in", JInt expires_in)])).

Definition room (uuid name : string) : json :=
  JDict [("uuid", JStr uuid); ("name", JStr name)].

Definition start : state := mkState JNull None (JList []) JNull [] 0.

(** ** The client, the catalog and the dispatcher *)

Section Server.

Local Open Scope py_scope.

(** Built-in functions of Python that the source calls and whose tables are
    not part of this development: [str.lower], [repr] of a string,
    [json.dumps(_, ensure_ascii=False, indent=2)] and the message of a
    built-in exception. *)
Variable lower : string -> string.
Variable repr_str : string -> string.
Variable json_dumps : json -> string.
Variable builtin_message : exn -> string.

(** The environment: the refresh credential, the remote server, which
    answers a request knowing the whole trace up to and including it, and
    the clock, which gives its n-th reading since the start, in
    microseconds since the epoch. *)
Variable REFRESH_TOKEN : string.
Variable server : list request -> http_result.
Variable clock : nat -> Z.

(** The two motion documents of the catalog are static data that the
    dispatcher passes through unchanged. They hold floating-point
    constants, so they are parameters here; the catalog's keys are
    concrete. *)
Variable head_shake_motion : json.
Variable simple_nod_motion : json.

(** [repr(v)]; [str(v)] is the same except on a string. *)
Fixpoint py_repr (v : json) : string :=
  match v with
  | JNull => "None"
  | JBool b => if b then "True" else "False"
  | JInt n => str_int n
  | JStr s => repr_str s
  | JList items =>
      "[" ++ (fix join (l : list json) : string :=
                match l with
                | [] => ""
                | [x] => py_repr x
                | x :: rest => py_repr x ++ ", " ++ join rest
                end) items ++ "]"
  | JDict fields =>
      "{" ++ (fix join (l : list (string * json)) : string :=
                match l with
                | [] => ""
                | [(k, x)] => repr_str k ++ ": " ++ py_repr x
                | (k, x) :: rest => repr_str k ++ ": " ++ py_repr x ++ ", " ++ join rest
                end) fields ++ "}"
  end.

Definition py_str (v : json) : string :=
  match v with
  | JStr s => s
  | _ => py_repr v
  end.

(** [str(e)] for a caught exception. *)
Definition str_exn (e : exn) : string :=
  match e with
  | Exception msg => msg
  | KeyError k => py_repr k
  | _ => builtin_message e
  end.

(** [v.lower()]: only a string has the method. *)
Definition py_lower (v : json) : outcome string :=
  match v with
  | JStr s => Ok (lower s)
  | _ => Raise AttributeError
  end.

(** [async with self.session.post(...)] and [self.session.get(...)]: the
    request joins the trace, then the server answers. *)
Definition http (r : request) : M (Z * option json) :=
  fun w =>
    let w' := push_request r w in
    match server (trace w') with
    | TransportFailure => (Raise ClientError, w')
    | Response status body => (Ok (status, body), w')
    end.

(** [await response.json()]. *)
Definition response_json (response : Z * option json) : M json :=
  match snd response with
  | Some v => ret v
  | None => raise ContentTypeError
  end.

(** [datetime.now()]. *)
Definition now : M Z := fun w => (Ok (clock (ticks w)), tick w).

Definition base_url : string := "https://platform-api.bocco.me".

Definition refresh_request : request :=
  mkRequest POST (base_url ++ "/oauth/token/refresh")
            [("Content-Type", "application/json")]
            (Some (JDict [("refresh_token", JStr REFRESH_TOKEN)])).

Definition auth_headers (token : json) : list (string * string) :=
  [("Authorization", "Bearer " ++ py_str token);
   ("Content-Type", "application/json")].

Definition rooms_request (token : json) : request :=
  mkRequest GET (base_url ++ "/v1/rooms") (auth_headers token) None.

Definition message_request (token target data : json) : request :=
  mkRequest POST (base_url ++ "/v1/rooms/" ++ py_str target ++ "/messages/text")
            (auth_headers token) (Some data).

Definition motion_request (token target motion_data : json) : request :=
  mkRequest POST (base_url ++ "/v1/rooms/" ++ py_str target ++ "/motions")
            (auth_headers token) (Some motion_data).

(** [BoccoEmoAPI.get_access_token] *)
Definition get_access_token : M bool :=
  try_except
    (response <- http refresh_request ;;
     result <- response_json response ;;
     has_token <- (if fst response =? 200
                   then lift (py_in "access_token" result)
                   else ret false) ;;
     if has_token then
       token <- lift (py_getitem result "access_token") ;;
       modify (set_access_token token) ;;;
       expires_in <- lift (match result with
                           | JDict fields => Ok (dict_get fields "expires_in" (JInt 3600))
                           | _ => Raise AttributeError
                           end) ;;
       t <- now ;;
       expires_at <- lift (token_expiry expires_in t) ;;
       modify (set_token_expires_at expires_at) ;;;
       ret true
     else ret false)
    (fun _ => ret false).

(** [BoccoEmoAPI.ensure_valid_token] *)
Definition ensure_valid_token : M bool :=
  token <- gets access_token ;;
  if negb (truthy token) then get_access_token
  else
    expires_at <- gets token_expires_at ;;
    match expires_at with
    | None => get_access_token
    | Some e =>
        t <- now ;;
        if t >? e - five_minutes then get_access_token else ret true
    end.

(** The marker test of [fetch_rooms] on the value [room.get("name", "")]. *)
Definition is_marked (room_name : json) : outcome bool :=
  match py_in "エモ" room_name with
  | Raise e => Raise e
  | Ok true => Ok true
  | Ok false =>
      match py_lower room_name with
      | Raise e => Raise e
      | Ok l => Ok (contains "emo" l)
      end
  end.

(** The [for] loop of [fetch_rooms]: [Some uuid] when the loop leaves with
    a marked room, [None] when it runs to its end. *)
Fixpoint find_marked_room (items : list json) : outcome (option json) :=
  match items with
  | [] => Ok None
  | room :: rest =>
      match room with
      | JDict fields =>
          match is_marked (dict_get fields "name" (JStr "")) with
          | Raise e => Raise e
          | Ok true =>
              match py_getitem room "uuid" with
              | Raise e => Raise e
              | Ok uuid => Ok (Some uuid)
              end
          | Ok false => find_marked_room rest
          end
      | _ => find_marked_room rest
      end
  end.

(** The response formats [fetch_rooms] accepts: a dictionary with a
    [rooms] entry, or a list. *)
Definition rooms_payload (rooms_data : json) : option json :=
  match rooms_data with
  | JDict fields => lookup "rooms" fields
  | JList _ => Some rooms_data
  | _ => None
  end.

(** [BoccoEmoAPI.fetch_rooms] *)
Definition fetch_rooms : M bool :=
  valid <- ensure_valid_token ;;
  if negb valid then ret false
  else
    try_except
      (token <- gets access_token ;;
       response <- http (rooms_request token) ;;
       if fst response =? 200 then
         rooms_data <- response_json response ;;
         match rooms_payload rooms_data with
         | None => ret false
         | Some v =>
             modify (set_rooms v) ;;;
             if truthy v then
               items <- lift (py_iter v) ;;
               marked <- lift (find_marked_room items) ;;
               match marked with
               | Some uuid => modify (set_default_room_id uuid) ;;; ret true
               | None =>
                   first <- lift (py_first v) ;;
                   match first with
                   | JDict _ =>
                       uuid <- lift (py_getitem first "uuid") ;;
                       modify (set_default_room_id uuid) ;;;
                       ret true
                   | _ => ret true
                   end
               end
             else ret true
         end
       else ret false)
      (fun _ => ret false).

(** [BoccoEmoAPI.initialize]; its last line formats [len(self.rooms)]. *)
Definition initialize : M unit :=
  ok <- get_access_token ;;
  if negb ok then raise (Exception "アクセストークンの取得に失敗しました")
  else
    fetch_rooms ;;;
    r <- gets rooms ;;
    lift (py_len r) ;;;
    ret tt.

(** [BoccoEmoAPI.send_message]. The nonce is the clock reading in whole
    milliseconds (the source computes it through a float product). *)
Definition send_message (text room_id : json) : M json :=
  valid <- ensure_valid_token ;;
  if negb valid then raise (Exception "アクセストークンの取得に失敗しました")
  else
    default <- gets default_room_id ;;
    let target_room := if truthy room_id then room_id else default in
    if negb (truthy target_room) then raise (Exception "送信先の部屋が指定されていません")
    else
      t <- now ;;
      let data := JDict [("text", text); ("unique_id", JStr (str_int (Z.quot t 1000)))] in
      token <- gets access_token ;;
      response <- http (message_request token target_room data) ;;
      result <- response_json response ;;
      ret (JDict [("status", JInt (fst response)); ("data", result);
                  ("room_id", target_room)]).

(** [BoccoEmoAPI.send_motion] *)
Definition send_motion (motion_data room_id : json) : M json :=
  valid <- ensure_valid_token ;;
  if negb valid then raise (Exception "アクセストークンの取得に失敗しました")
  else
    default <- gets default_room_id ;;
    let target_room := if truthy room_id then room_id else default in
    if negb (truthy target_room) then raise (Exception "送信先の部屋が指定されていません")
    else
      token <- gets access_token ;;
      response <- http (motion_request token target_room motion_data) ;;
      result <- response_json response ;;
      ret (JDict [("status", JInt (fst response)); ("data", result);
                  ("room_id", target_room)]).

(** The record [get_rooms_info] builds from the directory. *)
Definition rooms_snapshot (r d : json) (count : Z) : json :=
  JDict [("status", JInt 200);
         ("data", JDict [("rooms", r); ("default_room_id", d);
                         ("room_count", JInt count)])].

(** [BoccoEmoAPI.get_rooms_info] *)
Definition get_rooms_info : M json :=
  r0 <- gets rooms ;;
  (if negb (truthy r0) then fetch_rooms ;;; ret tt else ret tt) ;;;
  r <- gets rooms ;;
  d <- gets default_room_id ;;
  count <- lift (py_len r) ;;
  ret (rooms_snapshot r d count).

(** [PREDEFINED_MOTIONS] *)
Definition PREDEFINED_MOTIONS : list (string * json) :=
  [("head_shake", head_shake_motion); ("simple_nod", simple_nod_motion)].

(** [list(PREDEFINED_MOTIONS.keys())] *)
Definition motion_keys : list string := map fst PREDEFINED_MOTIONS.

(** [motion_name not in PREDEFINED_MOTIONS]: a list or a dictionary is not
    hashable. *)
Definition not_in_catalog (motion_name : json) : outcome bool :=
  match motion_name with
  | JStr s => Ok (match lookup s PREDEFINED_MOTIONS with Some _ => false | None => true end)
  | JList _ | JDict _ => Raise TypeError
  | _ => Ok true
  end.

(** The resolution loop of [call_tool]: the value of [room_id] when the
    loop is left. *)
Fixpoint match_room (room_name : json) (items : list json) : outcome json :=
  match items with
  | [] => Ok JNull
  | room :: rest =>
      match room with
      | JDict fields =>
          match py_lower room_name with
          | Raise e => Raise e
          | Ok q =>
              match py_lower (dict_get fields "name" (JStr "")) with
              | Raise e => Raise e
              | Ok n =>
                  if contains q n then py_getitem room "uuid"
                  else match_room room_name rest
              end
          end
      | _ => match_room room_name rest
      end
  end.

(** [room_id = None; if room_name: for room in api.rooms: ...] *)
Definition find_room_id (room_name : json) : M json :=
  if truthy room_name then
    r <- gets rooms ;;
    items <- lift (py_iter r) ;;
    lift (match_room room_name items)
  else ret JNull.

(** [[r.get('name') for r in api.rooms if isinstance(r, dict)]] *)
Definition available_names (items : list json) : list json :=
  flat_map (fun r => match r with
                     | JDict fields => [dict_get fields "name" JNull]
                     | _ => []
                     end) items.

(** The loop that finds the display name of the room that was used. *)
Fixpoint room_name_of (target : json) (items : list json) : outcome json :=
  match items with
  | [] => Ok (JStr "デフォルト部屋")
  | room :: rest =>
      match room with
      | JDict fields =>
          match py_getitem room "uuid" with
          | Raise e => Raise e
          | Ok u =>
              if py_eq u target then Ok (dict_get fields "name" (JStr "Unknown"))
              else room_name_of target rest
          end
      | _ => room_name_of target rest
      end
  end.

Definition used_room_name (result : json) : M json :=
  target <- lift (py_getitem result "room_id") ;;
  if truthy target then
    r <- gets rooms ;;
    items <- lift (py_iter r) ;;
    lift (room_name_of target items)
  else ret (JStr "デフォルト部屋").

Definition nl : string := String (ascii_of_nat 10) EmptyString.

(** The texts of the dispatcher. *)
Definition room_not_found_listing (room_name : json) (items : list json) : string :=
  "エラー: 部屋「" ++ py_str room_name ++ "」が見つかりません。利用可能な部屋: "
  ++ py_repr (JList (available_names items)).

Definition room_not_found (room_name : json) : string :=
  "エラー: 部屋「" ++ py_str room_name ++ "」が見つかりません".

Definition unknown_motion (motion_name : json) : string :=
  "エラー: モーション '" ++ py_str motion_name
  ++ "' が見つかりません。利用可能なモーション: "
  ++ py_repr (JList (map JStr motion_keys)).

Definition error_text (e : exn) : string :=
  "エラーが発生しました: " ++ str_exn e.

(** The body of the listing of [bocco_list_rooms]. *)
Fixpoint render_rooms (default : json) (i : Z) (items : list json) : string :=
  match items with
  | [] => ""
  | room :: rest =>
      match room with
      | JDict fields =>
          let name := dict_get fields "name" (JStr "Unknown") in
          let uuid := dict_get fields "uuid" (JStr "Unknown") in
          (if py_eq uuid default then "🏠 " else "   ")
          ++ str_int i ++ ". " ++ py_str name ++ nl
          ++ "   ID: " ++ py_str uuid ++ nl ++ nl
      | _ => ""
      end ++ render_rooms default (i + 1) rest
  end.

(** The branches of [call_tool], inside [async with ... as api]. *)
Definition dispatch (name : string) (arguments : list (string * json)) : M string :=
  if String.eqb name "bocco_send_message" then
    message <- lift (py_getitem (JDict arguments) "message") ;;
    let room_name := dict_get arguments "room_name" JNull in
    room_id <- find_room_id room_name ;;
    if truthy room_name && negb (truthy room_id) then
      r <- gets rooms ;;
      items <- lift (py_iter r) ;;
      ret (room_not_found_listing room_name items)
    else
      result <- send_message message room_id ;;
      used <- used_room_name result ;;
      status <- lift (py_getitem result "status") ;;
      ret ("メッセージ「" ++ py_str message ++ "」を" ++ py_str used
           ++ "に送信しました。" ++ nl ++ "ステータス: " ++ py_str status)
  else if String.eqb name "bocco_send_motion" then
    motion_name <- lift (py_getitem (JDict arguments) "motion_name") ;;
    let room_name := dict_get arguments "room_name" JNull in
    unknown <- lift (not_in_catalog motion_name) ;;
    if unknown then ret (unknown_motion motion_name)
    else
      room_id <- find_room_id room_name ;;
      if truthy room_name && negb (truthy room_id) then
        ret (room_not_found room_name)
      else
        motion_data <- lift (py_getitem (JDict PREDEFINED_MOTIONS) (py_str motion_name)) ;;
        result <- send_motion motion_data room_id ;;
        used <- used_room_name result ;;
        status <- lift (py_getitem result "status") ;;
        ret ("モーション「" ++ py_str motion_name ++ "」を" ++ py_str used
             ++ "で実行しました。" ++ nl ++ "ステータス: " ++ py_str status)
  else if String.eqb name "bocco_custom_motion" then
    motion_json <- lift (py_getitem (JDict arguments) "motion_json") ;;
    let room_name := dict_get arguments "room_name" JNull in
    room_id <- find_room_id room_name ;;
    if truthy room_name && negb (truthy room_id) then
      ret (room_not_found room_name)
    else
      result <- send_motion motion_json room_id ;;
      status <- lift (py_getitem result "status") ;;
      ret ("カスタムモーションを送信しました。" ++ nl ++ "ステータス: " ++ py_str status)
  else if String.eqb name "bocco_get_rooms" then
    result <- get_rooms_info ;;
    ret ("部屋情報を取得しました。" ++ nl ++ json_dumps result)
  else if String.eqb name "bocco_list_rooms" then
    result <- get_rooms_info ;;
    try_except
      (data <- lift (py_getitem result "data") ;;
       listed <- lift (py_getitem data "rooms") ;;
       if negb (truthy listed) then ret "部屋が見つかりませんでした。"
       else
         items <- lift (py_iter listed) ;;
         default <- lift (py_getitem data "default_room_id") ;;
         count <- lift (py_getitem data "room_count") ;;
         ret ("📍 BOCCO emo 部屋一覧:" ++ nl ++ nl
              ++ render_rooms default 1 items
              ++ "合計: " ++ py_str count ++ "部屋" ++ nl
              ++ "デフォルト部屋ID: " ++ py_str default))
      (fun e => ret ("部屋一覧の処理でエラーが発生しました: " ++ str_exn e))
  else ret ("エラー: 不明なツール '" ++ name ++ "'").

(** [call_tool]: a new client is opened and initialised, the action runs,
    and every exception becomes an error text. The text of the single
    [TextContent] is the result. *)
Definition call_tool (name : string) (arguments : list (string * json))
  : state -> string * state :=
  fun w =>
    match (initialize ;;; dispatch name arguments) (new_client w) with
    | (Ok text, w') => (text, w')
    | (Raise e, w') => (error_text e, w')
    end.

(** [list_tools]: each [Tool] with its name, description and input
    schema. *)
Record tool : Type := mkTool {
  tool_name : string;
  tool_description : string;
  inputSchema : json
}.

Definition room_name_property : string * json :=
  ("room_name",
   JDict [("type", JStr "string");
          ("description", JStr "送信先の部屋名（省略可、デフォルト部屋を使用）")]).

Definition list_tools : list tool :=
  [ mkTool "bocco_send_message"
      "BOCCO emoにテキストメッセージを送信します"
      (JDict [("type", JStr "object");
              ("properties",
               JDict [("message",
                       JDict [("type", JStr "string");
                              ("description", JStr "送信するメッセージ")]);
                      room_name_property]);
              ("required", JList [JStr "message"])]);
    mkTool "bocco_send_motion"
      "BOCCO emoにモーションを送信します"
      (JDict [("type", JStr "object");
              ("properties",
               JDict [("motion_name",
                       JDict [("type", JStr "string");
                              ("enum", JList [JStr "head_shake"; JStr "simple_nod"]);
                              ("description", JStr "実行するモーション名")]);
                      room_name_property]);
              ("required", JList [JStr "motion_name"])]);
    mkTool "bocco_custom_motion"
      "カスタムモーションJSONを送信します"
      (JDict [("type", JStr "object");
              ("properties",
               JDict [("motion_json",
                       JDict [("type", JStr "object");
                              ("description",
                               JStr "モーションを定義するJSONオブジェクト")]);
                      room_name_property]);
              ("required", JList [JStr "motion_json"])]);
    mkTool "bocco_get_rooms"
      "BOCCO emoの部屋一覧と接続状況を取得します"
      (JDict [("type", JStr "object");
              ("properties", JDict []);
              ("required", JList [])]);
    mkTool "bocco_list_rooms"
      "BOCCO emoの全部屋の詳細情報を一覧表示します"
      (JDict [("type", JStr "object");
              ("properties", JDict []);
              ("required", JList [])]) ].

(** The argument names a schema requires, and the values it allows for
    one of its properties. *)
Definition schema_required (schema : json) : list json :=
  match schema with
  | JDict fields => match lookup "required" fields with
                    | Some (JList names) => names
                    | _ => []
                    end
  | _ => []
  end.

Definition schema_enum (schema : json) (property : string) : list json :=
  match schema with
  | JDict fields =>
      match lookup "properties" fields with
      | Some (JDict properties) =>
          match lookup property properties with
          | Some (JDict description) =>
              match lookup "enum" description with
              | Some (JList values) => values
              | _ => []
              end
          | _ => []
          end
      | _ => []
      end
  | _ => []
  end.

(** ** Properties *)

(** The condition under which [ensure_valid_token] refreshes, read at the
    clock value [t]: no token, no known expiry, or [t] later than five
    minutes before the expiry. *)
Definition needs_refresh (w : state) (t : Z) : bool :=
  negb (truthy (access_token w))
  || match token_expires_at w with
     | None => true
     | Some e => t >? e - five_minutes
     end.

(** A room as the data model has it: a dictionary whose [uuid] and [name]
    are strings; other fields pass through. The view is [(uuid, name)]. *)
Definition as_room (v : json) : option (string * string) :=
  match v with
  | JDict fields =>
      match lookup "uuid" fields, lookup "name" fields with
      | Some (JStr u), Some (JStr n) => Some (u, n)
      | _, _ => None
      end
  | _ => None
  end.

(** The marker of the default room, as the selection rule words it: the
    name contains the marker substring, matched case-insensitively. *)
Definition has_marker (name : string) : bool :=
  contains "エモ" name || contains "emo" (lower name).

(** The default selection rule as the specification words it: the first
    room whose name has the marker, else the first room, else nothing. *)
Definition spec_default_room (rs : list (string * string)) : option string :=
  match find (fun r => has_marker (snd r)) rs with
  | Some r => Some (fst r)
  | None => match rs with
            | r :: _ => Some (fst r)
            | [] => None
            end
  end.

(** The same rule, case by case, relating the default room id before and
    after a fetch of the rooms [rs]. *)
Definition default_rule (rs : list (string * string)) (before after : json) : Prop :=
  (forall pre u n post,
      rs = (pre ++ (u, n) :: post)%list ->
      (forall r, In r pre -> has_marker (snd r) = false) ->
      has_marker n = true ->
      after = JStr u)
  /\ (forall u n rest,
        rs = (u, n) :: rest ->
        (forall r, In r rs -> has_marker (snd r) = false) ->
        after = JStr u)
  /\ (rs = [] -> after = before).

(** Name resolution as the specification words it: the first room whose
    display name contains the query, both lower-cased. *)
Definition spec_resolve (query : string) (rs : list (string * string)) : option string :=
  match find (fun r => contains (lower query) (lower (snd r))) rs with
  | Some r => Some (fst r)
  | None => None
  end.

(** The requests of the session initialisation: the token refresh and
    the room listing. *)
Definition is_init_request (r : request) : Prop :=
  r = refresh_request \/ exists token, r = rooms_request token.

(** [sends P m]: whatever [m] does, the requests it adds to the trace all
    satisfy [P], and it removes none. *)
Definition sends {A} (P : request -> Prop) (m : M A) : Prop :=
  forall w, exists added,
    trace (snd (m w)) = (trace w ++ added)%list /\ Forall P added.


(** [isinstance(v, dict)]. *)
Definition is_dict (v : json) : bool :=
  match v with
  | JDict _ => true
  | _ => false
  end.

(** The requests the client has: those of the initialisation and the two
    posts to a room. *)
Definition is_client_request (r : request) : Prop :=
  is_init_request r
  \/ (exists token target data, r = message_request token target data)
  \/ (exists token target motion_data, r = motion_request token target motion_data).

(** A refresh that does not succeed because of the transport or of the
    status. *)
Definition refresh_fails (answer : http_result) : Prop :=
  answer = TransportFailure
  \/ exists status body, answer = Response status body /\ status <> 200.

Ltac run :=
  unfold bind, ret, lift, gets, modify, raise, try_except, http, response_json, now;
  simpl.

(** What [get_access_token] does, by the answer of the server. *)
Lemma get_access_token_cases (w : state) :
  let w1 := push_request refresh_request w in
  get_access_token w =
  match server (trace w1) with
  | Response status (Some (JDict fields)) =>
      match status =? 200, lookup "access_token" fields with
      | true, Some token =>
          match token_expiry (dict_get fields "expires_in" (JInt 3600))
                             (clock (ticks w)) with
          | Ok expires_at =>
              (Ok true,
               set_token_expires_at expires_at (tick (set_access_token token w1)))
          | Raise _ => (Ok false, tick (set_access_token token w1))
          end
      | _, _ => (Ok false, w1)
      end
  | _ => (Ok false, w1)
  end.
Proof.
  unfold get_access_token. run.
  destruct (server (trace w ++ [refresh_request])) as [|status body]; [reflexivity|].
  destruct body as [v|]; simpl; [|reflexivity].
  destruct (status =? 200) eqn:Hs.
  - destruct v as [| b | n | s | items | fields]; simpl; try reflexivity.
    + destruct (contains "access_token" s); reflexivity.
    + destruct (existsb (is_str "access_token") items); reflexivity.
    + destruct (lookup "access_token" fields) as [token|]; simpl; [|reflexivity].
      destruct (token_expiry (dict_get fields "expires_in" (JInt 3600))
                             (clock (ticks w)));
        reflexivity.
  - destruct v; reflexivity.
Qed.

(** [get_access_token] never raises, sends exactly the refresh request and
    leaves the room directory alone. *)
Lemma get_access_token_frame (w : state) :
  exists b w', get_access_token w = (Ok b, w')
    /\ trace w' = (trace w ++ [refresh_request])%list
    /\ rooms w' = rooms w
    /\ default_room_id w' = default_room_id w.
Proof.
  rewrite get_access_token_cases. cbv zeta.
  destruct (server (trace (push_request refresh_request w))) as [|status [v|]];
    try (eexists _, _; split; [reflexivity|]; simpl; auto).
  destruct v; try (eexists _, _; split; [reflexivity|]; simpl; auto).
  destruct (status =? 200), (lookup "access_token" fields);
    try (eexists _, _; split; [reflexivity|]; simpl; auto).
  destruct (token_expiry (dict_get fields "expires_in" (JInt 3600))
                         (clock (ticks w)));
    eexists _, _; (split; [reflexivity|]); simpl; auto.
Qed.

(** [ensure_valid_token] is the refresh when one is needed, and otherwise
    only reads the clock. *)
Lemma ensure_valid_token_cases (w : state) :
  ensure_valid_token w =
  if negb (truthy (access_token w)) then get_access_token w
  else match token_expires_at w with
       | None => get_access_token w
       | Some e =>
           if clock (ticks w) >? e - five_minutes then get_access_token (tick w)
           else (Ok true, tick w)
       end.
Proof.
  unfold ensure_valid_token. run.
  destruct (negb (truthy (access_token w))); [reflexivity|].
  destruct (token_expires_at w) as [e|]; [|reflexivity].
  destruct (clock (ticks w) >? e - five_minutes); reflexivity.
Qed.

Lemma ensure_valid_token_frame (w : state) :
  exists b w', ensure_valid_token w = (Ok b, w')
    /\ (trace w' = trace w \/ trace w' = (trace w ++ [refresh_request])%list)
    /\ rooms w' = rooms w
    /\ default_room_id w' = default_room_id w.
Proof.
  rewrite ensure_valid_token_cases.
  destruct (negb (truthy (access_token w))).
  { destruct (get_access_token_frame w) as (b & w' & -> & Ht & Hr & Hd). eauto 8. }
  destruct (token_expires_at w) as [e|].
  2: { destruct (get_access_token_frame w) as (b & w' & -> & Ht & Hr & Hd). eauto 8. }
  destruct (clock (ticks w) >? e - five_minutes).
  - destruct (get_access_token_frame (tick w)) as (b & w' & -> & Ht & Hr & Hd).
    eauto 8.
  - eexists _, _; split; [reflexivity|]; simpl; auto.
Qed.

(** The refresh happens exactly when it is needed, and then once. *)
Lemma ensure_valid_token_by_need (w : state) :
  if needs_refresh w (clock (ticks w))
  then exists b w', ensure_valid_token w = (Ok b, w')
         /\ trace w' = (trace w ++ [refresh_request])%list
         /\ default_room_id w' = default_room_id w
  else ensure_valid_token w = (Ok true, tick w).
Proof.
  rewrite ensure_valid_token_cases. unfold needs_refresh.
  destruct (negb (truthy (access_token w))); simpl.
  { destruct (get_access_token_frame w) as (b & w' & -> & Ht & _ & Hd). eauto. }
  destruct (token_expires_at w) as [e|].
  2: { destruct (get_access_token_frame w) as (b & w' & -> & Ht & _ & Hd). eauto. }
  destruct (clock (ticks w) >? e - five_minutes).
  - destruct (get_access_token_frame (tick w)) as (b & w' & -> & Ht & _ & Hd). eauto.
  - reflexivity.
Qed.


Lemma token_expiry_in_range (n t : Z) :
  datetime_min <= t <= datetime_max ->
  datetime_min <= t + n * 1000000 <= datetime_max ->
  token_expiry (JInt n) t = Ok (t + n * 1000000).
Proof.
  intros Ht Hsum. unfold token_expiry, timedelta_seconds, datetime_add.
  replace ((timedelta_min <=? n * 1000000) && (n * 1000000 <=? timedelta_max))
    with true.
  - replace ((datetime_min <=? t + n * 1000000)
             && (t + n * 1000000 <=? datetime_max)) with true; [reflexivity|].
    symmetry. apply andb_true_intro. split; apply Z.leb_le; lia.
  - symmetry. apply andb_true_intro.
    unfold timedelta_min, timedelta_max, datetime_min, datetime_max in *.
    split; apply Z.leb_le; lia.
Qed.

Lemma token_expiry_ok (v : json) (t expires_at : Z) :
  token_expiry v t = Ok expires_at ->
  exists delta,
    timedelta_seconds v = Ok delta
    /\ datetime_min <= t + delta <= datetime_max
    /\ expires_at = t + delta.
Proof.
  unfold token_expiry, datetime_add.
  destruct (timedelta_seconds v) as [delta|]; [|discriminate].
  destruct ((datetime_min <=? t + delta) && (t + delta <=? datetime_max)) eqn:Hr;
    [|discriminate].
  intros [= <-]. exists delta. apply andb_prop in Hr as [Hlo Hhi].
  apply Z.leb_le in Hlo. apply Z.leb_le in Hhi. auto.
Qed.

(** C8 (as amended). When the refresh request meets a transport failure or
    a status other than 200, [get_access_token] returns failure and leaves
    the stored token and expiry exactly as they were, so the token is valid
    afterwards at the times at which it was valid before; and
    [get_access_token] returns success exactly with the expiry set to the
    clock reading plus the returned [expires_in] seconds, which must lie
    within the range of [datetime]. *)
Theorem get_access_token_outcomes (w : state) :
  let answer := server (trace w ++ [refresh_request])%list in
  ((answer = TransportFailure
    \/ exists status body, answer = Response status body /\ status <> 200) ->
   exists w', get_access_token w = (Ok false, w')
     /\ access_token w' = access_token w
     /\ token_expires_at w' = token_expires_at w
     /\ forall t, needs_refresh w' t = needs_refresh w t)
  /\ (forall fields token n,
        answer = Response 200 (Some (JDict fields)) ->
        lookup "access_token" fields = Some token ->
        lookup "expires_in" fields = Some (JInt n) ->
        datetime_min <= clock (ticks w) <= datetime_max ->
        datetime_min <= clock (ticks w) + n * 1000000 <= datetime_max ->
        exists w', get_access_token w = (Ok true, w')
          /\ access_token w' = token
          /\ token_expires_at w' = Some (clock (ticks w) + n * 1000000))
  /\ (forall w', get_access_token w = (Ok true, w') ->
        exists fields delta,
          answer = Response 200 (Some (JDict fields))
          /\ timedelta_seconds (dict_get fields "expires_in" (JInt 3600)) = Ok delta
          /\ datetime_min <= clock (ticks w) + delta <= datetime_max
          /\ token_expires_at w' = Some (clock (ticks w) + delta)).
Proof.
  cbv zeta. pose proof (get_access_token_cases w) as Hc. cbv zeta in Hc.
  change (trace (push_request refresh_request w))
    with (trace w ++ [refresh_request])%list in Hc.
  split; [|split].
  - intros Hfail.
    assert (Hg : get_access_token w = (Ok false, push_request refresh_request w)).
    { rewrite Hc. destruct Hfail as [-> | (status & body & -> & Hne)]; [reflexivity|].
      destruct body as [[]|]; try reflexivity.
      destruct (status =? 200) eqn:Hs; [|reflexivity].
      apply Z.eqb_eq in Hs. contradiction. }
    eexists; split; [exact Hg|]. simpl. repeat split.
  - intros fields token n Ha Htok Hexp Hnow Hsum. rewrite Hc, Ha. simpl.
    rewrite Htok. unfold dict_get. rewrite Hexp.
    rewrite (token_expiry_in_range n (clock (ticks w)) Hnow Hsum).
    eexists; split; [reflexivity|]. simpl. auto.
  - intros w' Hg. rewrite Hc in Hg.
    destruct (server (trace w ++ [refresh_request])) as [|status [v|]];
      try discriminate Hg.
    destruct v; try discriminate Hg.
    destruct (status =? 200) eqn:Hs; [|discriminate Hg].
    apply Z.eqb_eq in Hs; subst status.
    destruct (lookup "access_token" fields); [|discriminate Hg].
    destruct (token_expiry (dict_get fields "expires_in" (JInt 3600))
                           (clock (ticks w)))
      as [expires_at|] eqn:Hd; [|discriminate Hg].
    injection Hg as <-.
    apply token_expiry_ok in Hd as (delta & Hdelta & Hrange & ->).
    exists fields, delta. simpl. auto.
Qed.

Lemma is_marked_str (n : string) : is_marked (JStr n) = Ok (has_marker n).
Proof.
  unfold is_marked, has_marker. simpl.
  destruct (contains "エモ" n); reflexivity.
Qed.

Lemma as_room_inv (v : json) (u n : string) :
  as_room v = Some (u, n) ->
  exists fields, v = JDict fields
    /\ lookup "uuid" fields = Some (JStr u)
    /\ lookup "name" fields = Some (JStr n).
Proof.
  destruct v as [| | | | |fields]; try discriminate. simpl.
  destruct (lookup "uuid" fields) as [[]|] eqn:Hu; try discriminate.
  destruct (lookup "name" fields) as [[]|] eqn:Hn; try discriminate.
  intros [= -> ->]. eauto.
Qed.

(** On rooms of the data model the loop of [fetch_rooms] finds the first
    marked room. *)
Lemma find_marked_room_spec (items : list json) :
  forall rs, map as_room items = map Some rs ->
  find_marked_room items =
  Ok (option_map (fun r => JStr (fst r)) (find (fun r => has_marker (snd r)) rs)).
Proof.
  induction items as [|room items IH]; intros [|[u n] rs] Hv; try discriminate.
  - reflexivity.
  - simpl in Hv. injection Hv as Hroom Hrest.
    apply as_room_inv in Hroom as (fields & -> & Hu & Hn).
    simpl. unfold dict_get. rewrite Hn, is_marked_str.
    destruct (has_marker n); simpl.
    + rewrite Hu. reflexivity.
    + apply IH, Hrest.
Qed.

Lemma find_first_match {A} (f : A -> bool) (pre post : list A) (x : A) :
  (forall r, In r pre -> f r = false) -> f x = true ->
  find f (pre ++ x :: post) = Some x.
Proof.
  intros Hpre Hx. induction pre as [|y pre IH]; simpl.
  - rewrite Hx. reflexivity.
  - rewrite (Hpre y (or_introl eq_refl)). apply IH.
    intros r Hr. apply Hpre. right. exact Hr.
Qed.

Lemma find_no_match {A} (f : A -> bool) (l : list A) :
  (forall r, In r l -> f r = false) -> find f l = None.
Proof.
  intros Hl. induction l as [|y l IH]; simpl; [reflexivity|].
  rewrite (Hl y (or_introl eq_refl)). apply IH.
  intros r Hr. apply Hl. right. exact Hr.
Qed.

Lemma spec_default_room_rule (rs : list (string * string)) (before : json) :
  default_rule rs before
    (match spec_default_room rs with Some u => JStr u | None => before end).
Proof.
  unfold default_rule, spec_default_room. repeat split.
  - intros pre u n post -> Hpre Hn.
    rewrite (find_first_match (fun r => has_marker (snd r)) pre post (u, n) Hpre Hn).
    reflexivity.
  - intros u n rest Hrs Hno. rewrite (find_no_match _ rs Hno). rewrite Hrs.
    reflexivity.
  - intros ->. reflexivity.
Qed.

(** C2. After a successful fetch of a sequence of rooms the default room id
    is the uuid of the first room whose name has the marker, wherever it
    stands in the sequence; without such a room it is the uuid of the first
    room; and for the empty sequence it is what it was before (unset in a
    new client). *)
Theorem fetch_rooms_default_room (w w1 : state) (body : json)
    (items : list json) (rs : list (string * string)) :
  ensure_valid_token w = (Ok true, w1) ->
  server (trace w1 ++ [rooms_request (access_token w1)])%list
    = Response 200 (Some body) ->
  (body = JList items
   \/ exists fields, body = JDict fields /\ lookup "rooms" fields = Some (JList items)) ->
  map as_room items = map Some rs ->
  exists w2, fetch_rooms w = (Ok true, w2)
    /\ rooms w2 = JList items
    /\ default_room_id w2
       = match spec_default_room rs with
         | Some u => JStr u
         | None => default_room_id w
         end
    /\ default_rule rs (default_room_id w) (default_room_id w2).
Proof.
  intros Hvalid Hserver Hbody Hrooms.
  assert (Hd : default_room_id w1 = default_room_id w).
  { destruct (ensure_valid_token_frame w) as (b & w' & He & _ & _ & Hd).
    rewrite Hvalid in He. injection He as _ <-. exact Hd. }
  assert (Hgoal : exists w2, fetch_rooms w = (Ok true, w2)
            /\ rooms w2 = JList items
            /\ default_room_id w2
               = match spec_default_room rs with
                 | Some u => JStr u
                 | None => default_room_id w
                 end).
  { unfold fetch_rooms. run. rewrite Hvalid. simpl. rewrite Hserver. simpl.
    assert (Hpay : rooms_payload body = Some (JList items)).
    { destruct Hbody as [-> | (fields & -> & Hl)]; [reflexivity|exact Hl]. }
    rewrite Hpay. clear Hpay. simpl.
    destruct items as [|room items].
    { destruct rs; [|discriminate]. simpl.
      eexists; split; [reflexivity|]. simpl. auto. }
    rewrite (find_marked_room_spec (room :: items) rs Hrooms).
    unfold spec_default_room.
    destruct (find (fun r => has_marker (snd r)) rs) as [[u n]|]; simpl.
    { eexists; split; [reflexivity|]. simpl. auto. }
    destruct rs as [|[u n] rs]; [discriminate|].
    simpl in Hrooms. injection Hrooms as Hroom _.
    apply as_room_inv in Hroom as (fields & -> & Hu & _).
    simpl. rewrite Hu. simpl.
    eexists; split; [reflexivity|]. simpl. auto. }
  destruct Hgoal as (w2 & Hf & Hr & Hdef).
  exists w2. repeat split; try assumption.
  - rewrite Hdef. apply spec_default_room_rule.
  - rewrite Hdef. apply spec_default_room_rule.
  - rewrite Hdef. apply spec_default_room_rule.
Qed.

(** On rooms of the data model the resolution loop is the
    specification's linear scan. *)
Lemma match_room_spec (query : string) (items : list json) :
  forall rs, map as_room items = map Some rs ->
  match_room (JStr query) items =
  Ok (match spec_resolve query rs with Some u => JStr u | None => JNull end).
Proof.
  unfold spec_resolve.
  induction items as [|room items IH]; intros [|[u n] rs] Hv; try discriminate.
  - reflexivity.
  - simpl in Hv. injection Hv as Hroom Hrest.
    apply as_room_inv in Hroom as (fields & -> & Hu & Hn).
    simpl. unfold dict_get. rewrite Hn. simpl.
    destruct (contains (lower query) (lower n)).
    + rewrite Hu. reflexivity.
    + apply IH, Hrest.
Qed.

(** C3. Resolution of a room name yields the uuid of the first room, in
    directory order, whose display name contains the query as a substring
    after both are lower-cased, and yields no room id exactly when no room
    name contains the query. *)
Theorem find_room_id_resolves (w : state) (query : string)
    (items : list json) (rs : list (string * string)) :
  query <> "" ->
  rooms w = JList items ->
  map as_room items = map Some rs ->
  (forall r, In r rs -> fst r <> "") ->
  exists room_id,
    find_room_id (JStr query) w = (Ok room_id, w)
    /\ room_id = match spec_resolve query rs with Some u => JStr u | None => JNull end
    /\ (forall pre u n post,
          rs = (pre ++ (u, n) :: post)%list ->
          (forall r, In r pre -> contains (lower query) (lower (snd r)) = false) ->
          contains (lower query) (lower n) = true ->
          room_id = JStr u)
    /\ (truthy room_id = false <->
        forall r, In r rs -> contains (lower query) (lower (snd r)) = false).
Proof.
  intros Hq Hrooms Hview Hids.
  eexists. split; [|split; [reflexivity|split]].
  - unfold find_room_id. simpl.
    destruct (String.eqb_spec query ""); [contradiction|]. simpl.
    run. rewrite Hrooms. simpl.
    rewrite (match_room_spec query items rs Hview). reflexivity.
  - intros pre u n post -> Hpre Hn. unfold spec_resolve.
    rewrite (find_first_match (fun r => contains (lower query) (lower (snd r)))
               pre post (u, n) Hpre Hn).
    reflexivity.
  - unfold spec_resolve.
    destruct (find (fun r => contains (lower query) (lower (snd r))) rs)
      as [[u n]|] eqn:Hfind.
    + apply find_some in Hfind as [Hin Hc]. simpl in Hc. split.
      * simpl. intros Hu. destruct (String.eqb_spec u ""); [|discriminate].
        exfalso. apply (Hids (u, n) Hin). assumption.
      * intros Hno. specialize (Hno (u, n) Hin). simpl in Hno. congruence.
    + split; [|reflexivity]. intros _ r Hr.
      apply (find_none _ _ Hfind r Hr).
Qed.

(** *** Which requests a computation sends *)

Lemma sends_ret {A} (P : request -> Prop) (a : A) : sends P (ret a).
Proof. intros w. exists []. simpl. rewrite app_nil_r. auto. Qed.

Lemma sends_raise {A} (P : request -> Prop) (e : exn) : sends P (@raise A e).
Proof. intros w. exists []. simpl. rewrite app_nil_r. auto. Qed.

Lemma sends_lift {A} (P : request -> Prop) (o : outcome A) : sends P (lift o).
Proof. intros w. exists []. simpl. rewrite app_nil_r. auto. Qed.

Lemma sends_gets {A} (P : request -> Prop) (f : state -> A) : sends P (gets f).
Proof. intros w. exists []. simpl. rewrite app_nil_r. auto. Qed.

Lemma sends_now (P : request -> Prop) : sends P now.
Proof. intros w. exists []. simpl. rewrite app_nil_r. auto. Qed.

Lemma sends_modify (P : request -> Prop) (f : state -> state) :
  (forall w, trace (f w) = trace w) -> sends P (modify f).
Proof. intros Hf w. exists []. simpl. rewrite app_nil_r, Hf. auto. Qed.

Lemma sends_response_json (P : request -> Prop) (response : Z * option json) :
  sends P (response_json response).
Proof.
  unfold response_json. destruct (snd response);
    [apply sends_ret | apply sends_raise].
Qed.

Lemma sends_http (P : request -> Prop) (r : request) : P r -> sends P (http r).
Proof.
  intros Hr w. exists [r]. unfold http.
  destruct (server (trace (push_request r w))); simpl; auto.
Qed.

Lemma sends_bind {A B} (P : request -> Prop) (m : M A) (k : A -> M B) :
  sends P m -> (forall a, sends P (k a)) -> sends P (bind m k).
Proof.
  intros Hm Hk w. unfold bind.
  destruct (Hm w) as (added & Ht & Hp).
  destruct (m w) as [[a|e] w1]; simpl in *.
  - destruct (Hk a w1) as (added' & Ht' & Hp').
    exists (added ++ added')%list. rewrite Ht', Ht, app_assoc.
    split; [reflexivity|]. apply Forall_app. auto.
  - exists added. auto.
Qed.

Lemma sends_try {A} (P : request -> Prop) (m : M A) (h : exn -> M A) :
  sends P m -> (forall e, sends P (h e)) -> sends P (try_except m h).
Proof.
  intros Hm Hh w. unfold try_except.
  destruct (Hm w) as (added & Ht & Hp).
  destruct (m w) as [[a|e] w1]; simpl in *.
  - exists added. auto.
  - destruct (Hh e w1) as (added' & Ht' & Hp').
    exists (added ++ added')%list. rewrite Ht', Ht, app_assoc.
    split; [reflexivity|]. apply Forall_app. auto.
Qed.

Ltac sends_step :=
  first
    [ apply sends_ret | apply sends_raise | apply sends_lift | apply sends_gets
    | apply sends_now | apply sends_response_json
    | apply sends_modify; reflexivity
    | apply sends_bind; [|intros ?]
    | apply sends_try; [|intros ?]
    | match goal with
      | |- sends _ (if ?b then _ else _) => destruct b
      | |- sends _ (match ?x with _ => _ end) => destruct x
      end ].

Lemma sends_get_access_token : sends is_init_request get_access_token.
Proof.
  intros w. destruct (get_access_token_frame w) as (b & w' & -> & Ht & _).
  exists [refresh_request]. simpl. split; [exact Ht|].
  constructor; [left; reflexivity|constructor].
Qed.

Lemma sends_ensure_valid_token : sends is_init_request ensure_valid_token.
Proof.
  unfold ensure_valid_token.
  repeat first [apply sends_get_access_token | sends_step].
Qed.

Lemma sends_fetch_rooms : sends is_init_request fetch_rooms.
Proof.
  unfold fetch_rooms.
  repeat first
    [ apply sends_ensure_valid_token
    | apply sends_http; right; eexists; reflexivity
    | sends_step ].
Qed.

Lemma sends_initialize : sends is_init_request initialize.
Proof.
  unfold initialize.
  repeat first [apply sends_get_access_token | apply sends_fetch_rooms | sends_step].
Qed.

Lemma init_request_not_motion (r : request) :
  is_init_request r ->
  forall token target motion_data, r <> motion_request token target motion_data.
Proof.
  intros [-> | (tok & ->)] token target motion_data H; discriminate H.
Qed.

(** C4 (as amended). For every invocation of the send-motion tool with a
    string motion name outside the catalog's keys, the only requests sent
    are those of the session initialisation (token refresh and room
    listing), none goes to the motion endpoint, and, once the
    initialisation has succeeded, the returned text lists exactly the
    catalog's key names. *)
Theorem call_tool_unknown_motion (w : state) (arguments : list (string * json))
    (motion_name : string) :
  lookup "motion_name" arguments = Some (JStr motion_name) ->
  lookup motion_name PREDEFINED_MOTIONS = None ->
  (exists added,
      trace (snd (call_tool "bocco_send_motion" arguments w))
      = (trace w ++ added)%list
      /\ Forall is_init_request added
      /\ Forall (fun r => forall token target motion_data,
                    r <> motion_request token target motion_data) added)
  /\ call_tool "bocco_send_motion" arguments w
     = match initialize (new_client w) with
       | (Ok _, w') => (unknown_motion (JStr motion_name), w')
       | (Raise e, w') => (error_text e, w')
       end
  /\ unknown_motion (JStr motion_name)
     = "エラー: モーション '" ++ motion_name
       ++ "' が見つかりません。利用可能なモーション: "
       ++ py_repr (JList [JStr "head_shake"; JStr "simple_nod"]).
Proof.
  intros Hname Hout.
  assert (Hcall : call_tool "bocco_send_motion" arguments w
                  = match initialize (new_client w) with
                    | (Ok _, w') => (unknown_motion (JStr motion_name), w')
                    | (Raise e, w') => (error_text e, w')
                    end).
  { unfold call_tool, bind.
    destruct (initialize (new_client w)) as [[[]|e] wi]; [|reflexivity].
    unfold dispatch.
    replace (String.eqb "bocco_send_motion" "bocco_send_message") with false
      by reflexivity.
    replace (String.eqb "bocco_send_motion" "bocco_send_motion") with true
      by reflexivity.
    unfold lift, bind, py_getitem. rewrite Hname.
    unfold not_in_catalog. rewrite Hout. reflexivity. }
  split; [|split; [exact Hcall|reflexivity]].
  rewrite Hcall.
  destruct (sends_initialize (new_client w)) as (added & Ht & Hp).
  exists added. split; [|split].
  - destruct (initialize (new_client w)) as [[[]|e] wi]; exact Ht.
  - exact Hp.
  - apply (Forall_impl _ init_request_not_motion Hp).
Qed.


(** C6 (as amended). [send_message] and [send_motion] return the record
    of the HTTP status of the remote response, its decoded body and the
    room targeted, for every status code, once the token check has
    succeeded, a target room is known and the body decodes;
    [get_rooms_info] returns the constant status 200 with the directory
    snapshot and has no [room_id] entry. *)
Theorem client_operation_results (w : state) :
  (forall text room_id w1 status body,
      ensure_valid_token w = (Ok true, w1) ->
      let target := if truthy room_id then room_id else default_room_id w1 in
      let data := JDict [("text", text);
                         ("unique_id",
                          JStr (str_int (Z.quot (clock (ticks w1)) 1000)))] in
      truthy target = true ->
      server (trace w1 ++ [message_request (access_token w1) target data])%list
        = Response status (Some body) ->
      exists w2,
        send_message text room_id w
        = (Ok (JDict [("status", JInt status); ("data", body);
                      ("room_id", target)]), w2))
  /\ (forall motion_data room_id w1 status body,
        ensure_valid_token w = (Ok true, w1) ->
        let target := if truthy room_id then room_id else default_room_id w1 in
        truthy target = true ->
        server (trace w1 ++ [motion_request (access_token w1) target motion_data])%list
          = Response status (Some body) ->
        exists w2,
          send_motion motion_data room_id w
          = (Ok (JDict [("status", JInt status); ("data", body);
                        ("room_id", target)]), w2))
  /\ (forall count,
        truthy (rooms w) = true ->
        py_len (rooms w) = Ok count ->
        get_rooms_info w
        = (Ok (rooms_snapshot (rooms w) (default_room_id w) count), w))
  /\ (forall v w',
        get_rooms_info w = (Ok v, w') ->
        py_getitem v "status" = Ok (JInt 200)
        /\ py_getitem v "room_id" = Raise (KeyError (JStr "room_id"))).
Proof.
  repeat split.
  - intros text room_id w1 status body Hvalid target data Htarget Hserver.
    unfold send_message, bind. rewrite Hvalid. simpl.
    unfold gets. fold target. rewrite Htarget. simpl.
    unfold now, http. simpl. fold data. rewrite Hserver. simpl.
    eexists. reflexivity.
  - intros motion_data room_id w1 status body Hvalid target Htarget Hserver.
    unfold send_motion, bind. rewrite Hvalid. simpl.
    unfold gets. fold target. rewrite Htarget. simpl.
    unfold http. simpl. rewrite Hserver. simpl.
    eexists. reflexivity.
  - intros count Htruthy Hlen. unfold get_rooms_info. run.
    rewrite Htruthy. simpl. rewrite Hlen. reflexivity.
  - unfold get_rooms_info in H. revert H. run.
    destruct (truthy (rooms w)); simpl.
    + destruct (py_len (rooms w)); intros [= <- <-]. reflexivity.
    + destruct (fetch_rooms w) as [[b|e] w1]; simpl; [|discriminate].
      destruct (py_len (rooms w1)); intros [= <- <-]. reflexivity.
  - unfold get_rooms_info in H. revert H. run.
    destruct (truthy (rooms w)); simpl.
    + destruct (py_len (rooms w)); intros [= <- <-]. reflexivity.
    + destruct (fetch_rooms w) as [[b|e] w1]; simpl; [|discriminate].
      destruct (py_len (rooms w1)); intros [= <- <-]. reflexivity.
Qed.



(** With an empty or an absent room name the dispatcher runs the action
    with no room id. *)
Lemma dispatch_room_name_falsy (name : string) (a a' : list (string * json)) :
  truthy (dict_get a "room_name" JNull) = false ->
  truthy (dict_get a' "room_name" JNull) = false ->
  (forall k, k <> "room_name" -> lookup k a = lookup k a') ->
  dispatch name a = dispatch name a'.
Proof.
  intros Ha Ha' Hsame. unfold dispatch, find_room_id, py_getitem.
  rewrite Ha, Ha'. simpl.
  rewrite (Hsame "message"), (Hsame "motion_name"), (Hsame "motion_json");
    solve [reflexivity | discriminate].
Qed.

(** ** Further properties of the client *)

(** X1. [get_access_token] never raises: it returns [True] exactly when
    the answer has status 200, is a dictionary with an [access_token] and
    gives a usable expiry, and [False] on a transport failure, an
    undecodable body, any other status, a body of the wrong shape, a
    missing [access_token] and an unusable [expires_in]. It sends exactly
    one request, the refresh, and leaves the room directory alone. *)
Theorem get_access_token_never_raises (w : state) :
  let answer := server (trace w ++ [refresh_request])%list in
  exists b w', get_access_token w = (Ok b, w')
    /\ trace w' = (trace w ++ [refresh_request])%list
    /\ rooms w' = rooms w
    /\ default_room_id w' = default_room_id w
    /\ (b = true <->
        exists fields token expires_at,
          answer = Response 200 (Some (JDict fields))
          /\ lookup "access_token" fields = Some token
          /\ token_expiry (dict_get fields "expires_in" (JInt 3600))
                          (clock (ticks w)) = Ok expires_at)
    /\ (answer = TransportFailure -> b = false)
    /\ (forall status, answer = Response status None -> b = false)
    /\ (forall status body,
          answer = Response status (Some body) -> status <> 200 -> b = false)
    /\ (forall status body,
          answer = Response status (Some body) ->
          (forall fields, body <> JDict fields) -> b = false)
    /\ (forall status fields,
          answer = Response status (Some (JDict fields)) ->
          lookup "access_token" fields = None -> b = false)
    /\ (forall status fields e,
          answer = Response status (Some (JDict fields)) ->
          token_expiry (dict_get fields "expires_in" (JInt 3600))
                       (clock (ticks w)) = Raise e ->
          b = false).
Proof.
  cbv zeta.
  assert (Hmain : exists b w', get_access_token w = (Ok b, w')
            /\ trace w' = (trace w ++ [refresh_request])%list
            /\ rooms w' = rooms w
            /\ default_room_id w' = default_room_id w
            /\ (b = true <->
                exists fields token expires_at,
                  server (trace w ++ [refresh_request])%list
                  = Response 200 (Some (JDict fields))
                  /\ lookup "access_token" fields = Some token
                  /\ token_expiry (dict_get fields "expires_in" (JInt 3600))
                                  (clock (ticks w)) = Ok expires_at)).
  { pose proof (get_access_token_cases w) as Hc. cbv zeta in Hc.
    change (trace (push_request refresh_request w))
      with (trace w ++ [refresh_request])%list in Hc.
    destruct (server (trace w ++ [refresh_request])) as [|status [v|]].
    - exists false. eexists. split; [exact Hc|]. simpl.
      do 3 (split; [reflexivity|]). split; [discriminate|].
      intros (fields & token & expires_at & H & _). discriminate H.
    - destruct v as [| | | | |fields].
      1-5: exists false; eexists; (split; [exact Hc|]); simpl;
        do 3 (split; [reflexivity|]); (split; [discriminate|]);
        intros (fields & token & expires_at & H & _); discriminate H.
      destruct (status =? 200) eqn:Hs.
      + apply Z.eqb_eq in Hs. subst status.
        destruct (lookup "access_token" fields) as [token|] eqn:Hl.
        * destruct (token_expiry (dict_get fields "expires_in" (JInt 3600))
                                 (clock (ticks w))) as [expires_at|e] eqn:He.
          -- exists true. eexists. split; [exact Hc|]. simpl.
             do 3 (split; [reflexivity|]). split; [|reflexivity].
             intros _. exists fields, token, expires_at. auto.
          -- exists false. eexists. split; [exact Hc|]. simpl.
             do 3 (split; [reflexivity|]). split; [discriminate|].
             intros (fields' & token' & expires_at & [= <-] & _ & Hok).
             congruence.
        * exists false. eexists. split; [exact Hc|]. simpl.
          do 3 (split; [reflexivity|]). split; [discriminate|].
          intros (fields' & token' & expires_at & [= <-] & Hsome & _).
          congruence.
      + exists false. eexists. split; [exact Hc|]. simpl.
        do 3 (split; [reflexivity|]). split; [discriminate|].
        intros (fields' & token' & expires_at & [= -> _] & _).
        discriminate Hs.
    - exists false. eexists. split; [exact Hc|]. simpl.
      do 3 (split; [reflexivity|]). split; [discriminate|].
      intros (fields & token & expires_at & H & _). discriminate H. }
  destruct Hmain as (b & w' & Hg & Ht & Hr & Hd & Hiff).
  exists b, w'. do 5 (split; [assumption|]).
  repeat split.
  - intros Ha. destruct b; [|reflexivity].
    destruct (proj1 Hiff eq_refl) as (fields & token & ex & Ha' & _). congruence.
  - intros status Ha. destruct b; [|reflexivity].
    destruct (proj1 Hiff eq_refl) as (fields & token & ex & Ha' & _). congruence.
  - intros status body Ha Hne. destruct b; [|reflexivity].
    destruct (proj1 Hiff eq_refl) as (fields & token & ex & Ha' & _). congruence.
  - intros status body Ha Hshape. destruct b; [|reflexivity].
    destruct (proj1 Hiff eq_refl) as (fields & token & ex & Ha' & _).
    rewrite Ha in Ha'. injection Ha' as _ Hbody.
    exfalso. apply (Hshape fields Hbody).
  - intros status fields Ha Hnone. destruct b; [|reflexivity].
    destruct (proj1 Hiff eq_refl) as (fields' & token & ex & Ha' & Hl & _).
    congruence.
  - intros status fields e Ha Hraise. destruct b; [|reflexivity].
    destruct (proj1 Hiff eq_refl) as (fields' & token & ex & Ha' & _ & Hok).
    rewrite Ha in Ha'. injection Ha' as _ <-. congruence.
Qed.

(** X2. When the refresh answers 200 with an [access_token] but with an
    [expires_in] that is not a number, [get_access_token] returns [False]
    although it has already stored the new token; the expiry keeps its old
    value. *)
Theorem get_access_token_bad_expires_in (w : state)
    (fields : list (string * json)) (token : json) (e : exn) :
  server (trace w ++ [refresh_request])%list = Response 200 (Some (JDict fields)) ->
  lookup "access_token" fields = Some token ->
  timedelta_seconds (dict_get fields "expires_in" (JInt 3600)) = Raise e ->
  exists w', get_access_token w = (Ok false, w')
    /\ access_token w' = token
    /\ token_expires_at w' = token_expires_at w.
Proof.
  intros Hanswer Htoken Hbad.
  pose proof (get_access_token_cases w) as Hc. cbv zeta in Hc.
  change (trace (push_request refresh_request w))
    with (trace w ++ [refresh_request])%list in Hc.
  rewrite Hanswer in Hc. simpl in Hc. rewrite Htoken in Hc.
  unfold token_expiry in Hc. rewrite Hbad in Hc.
  eexists. split; [exact Hc|]. simpl. auto.
Qed.

(** X3. When the refresh answers 200 with an [access_token] and no
    [expires_in], the token is given a life of 3600 seconds from the clock
    reading, a datetime that leaves this hour before the end of the
    range. *)
Theorem get_access_token_default_expiry (w : state)
    (fields : list (string * json)) (token : json) :
  server (trace w ++ [refresh_request])%list = Response 200 (Some (JDict fields)) ->
  lookup "access_token" fields = Some token ->
  lookup "expires_in" fields = None ->
  datetime_min <= clock (ticks w) ->
  clock (ticks w) + 3600 * 1000000 <= datetime_max ->
  exists w', get_access_token w = (Ok true, w')
    /\ access_token w' = token
    /\ token_expires_at w' = Some (clock (ticks w) + 3600 * 1000000).
Proof.
  intros Hanswer Htoken Hnone Hlo Hhi.
  pose proof (get_access_token_cases w) as Hc. cbv zeta in Hc.
  change (trace (push_request refresh_request w))
    with (trace w ++ [refresh_request])%list in Hc.
  rewrite Hanswer in Hc. simpl in Hc. rewrite Htoken in Hc.
  unfold dict_get in Hc. rewrite Hnone in Hc.
  rewrite (token_expiry_in_range 3600 (clock (ticks w))) in Hc by lia.
  eexists. split; [exact Hc|]. simpl. auto.
Qed.



(** X5. When the listing request meets a transport failure, a status other
    than 200, an undecodable body or a body that is neither a list nor a
    dictionary with a [rooms] entry, [fetch_rooms] returns [False] and the
    directory and the default room are what they were. *)
Theorem fetch_rooms_rejected_response (w w1 : state) :
  ensure_valid_token w = (Ok true, w1) ->
  let answer := server (trace w1 ++ [rooms_request (access_token w1)])%list in
  (answer = TransportFailure
   \/ (exists status body, answer = Response status body /\ status <> 200)
   \/ answer = Response 200 None
   \/ (exists body, answer = Response 200 (Some body) /\ rooms_payload body = None)) ->
  exists w', fetch_rooms w = (Ok false, w')
    /\ rooms w' = rooms w
    /\ default_room_id w' = default_room_id w.
Proof.
  intros Hvalid answer Hbad.
  destruct (ensure_valid_token_frame w) as (b & w0 & He & _ & Hr & Hd).
  rewrite Hvalid in He. injection He as <- <-.
  unfold fetch_rooms, bind. rewrite Hvalid. simpl.
  unfold try_except, bind, gets, http. simpl. fold answer.
  destruct Hbad as [-> | [(status & body & -> & Hne) | [-> | (body & -> & Hp)]]];
    simpl.
  - eexists. split; [reflexivity|]. simpl. auto.
  - destruct (status =? 200) eqn:Hs.
    { apply Z.eqb_eq in Hs. contradiction. }
    simpl. eexists. split; [reflexivity|]. simpl. auto.
  - eexists. split; [reflexivity|]. simpl. auto.
  - rewrite Hp. simpl. eexists. split; [reflexivity|]. simpl. auto.
Qed.

(** X6. When the listing is accepted but the search for the marked room
    raises (a marked room without [uuid], a name that is not a string),
    [fetch_rooms] returns [False] with the directory already replaced by
    the new list and the default room left as it was. *)
Theorem fetch_rooms_partial_update (w w1 : state) (body : json)
    (items : list json) (e : exn) :
  ensure_valid_token w = (Ok true, w1) ->
  server (trace w1 ++ [rooms_request (access_token w1)])%list
    = Response 200 (Some body) ->
  rooms_payload body = Some (JList items) ->
  find_marked_room items = Raise e ->
  exists w', fetch_rooms w = (Ok false, w')
    /\ rooms w' = JList items
    /\ default_room_id w' = default_room_id w.
Proof.
  intros Hvalid Hanswer Hpayload Hraise.
  destruct (ensure_valid_token_frame w) as (b & w0 & He & _ & _ & Hd).
  rewrite Hvalid in He. injection He as <- <-.
  unfold fetch_rooms, bind. rewrite Hvalid. simpl.
  unfold try_except, bind, gets, http. simpl. rewrite Hanswer. simpl.
  rewrite Hpayload. simpl.
  destruct items as [|room items]; [discriminate Hraise|].
  unfold lift. simpl py_iter. cbv iota beta. rewrite Hraise.
  eexists. split; [reflexivity|]. simpl. auto.
Qed.

(** X7. Entries of the directory that are not dictionaries are skipped by
    every loop over it: the search for the marked room, the resolution of
    a room name, the search for the name of the room used and the list of
    the available names. *)
Theorem non_dict_entries_are_skipped (items : list json) :
  find_marked_room items = find_marked_room (filter is_dict items)
  /\ (forall room_name,
        match_room room_name items = match_room room_name (filter is_dict items))
  /\ (forall target,
        room_name_of target items = room_name_of target (filter is_dict items))
  /\ available_names items = available_names (filter is_dict items).
Proof.
  repeat split.
  - induction items as [|room items IH]; [reflexivity|].
    destruct room; simpl; try exact IH.
    destruct (is_marked (dict_get fields "name" (JStr ""))) as [[|]|];
      try reflexivity. exact IH.
  - intros room_name. induction items as [|room items IH]; [reflexivity|].
    destruct room; simpl; try exact IH.
    destruct (py_lower room_name); [|reflexivity].
    destruct (py_lower (dict_get fields "name" (JStr ""))); [|reflexivity].
    destruct (contains a a0); [reflexivity|exact IH].
  - intros target. induction items as [|room items IH]; [reflexivity|].
    destruct room; simpl; try exact IH.
    destruct (lookup "uuid" fields); [|reflexivity].
    destruct (py_eq j target); [reflexivity|exact IH].
  - induction items as [|room items IH]; [reflexivity|].
    destruct room; simpl; try exact IH.
    rewrite IH. reflexivity.
Qed.


(** X9. An explicit room id takes precedence over the default room: when
    [send_message] or [send_motion] returns, the record names the given
    room, the last request sent is the post to that room, and it carries
    the text, respectively the motion document unchanged. *)
Theorem explicit_room_is_targeted (w : state) (room_id : json) :
  truthy room_id = true ->
  (forall text v w',
      send_message text room_id w = (Ok v, w') ->
      py_getitem v "room_id" = Ok room_id
      /\ exists sent data,
          trace w' = (sent ++ [message_request (access_token w') room_id data])%list
          /\ py_getitem data "text" = Ok text)
  /\ (forall motion_data v w',
        send_motion motion_data room_id w = (Ok v, w') ->
        py_getitem v "room_id" = Ok room_id
        /\ exists sent,
            trace w'
            = (sent ++ [motion_request (access_token w') room_id motion_data])%list).
Proof.
  intros Hroom. split.
  - intros text v w'. unfold send_message, bind.
    destruct (ensure_valid_token_frame w) as (b & w1 & -> & _).
    destruct b; simpl; [|discriminate].
    unfold gets. rewrite Hroom. simpl. rewrite ?Hroom. simpl.
    unfold now, http. simpl.
    match goal with
    | |- context [server ?tr] => destruct (server tr) as [|status [body|]]
    end; simpl; try discriminate.
    intros [= <- <-]. split; [reflexivity|]. simpl.
    eexists _, _. split; reflexivity.
  - intros motion_data v w'. unfold send_motion, bind.
    destruct (ensure_valid_token_frame w) as (b & w1 & -> & _).
    destruct b; simpl; [|discriminate].
    unfold gets. rewrite Hroom. simpl. rewrite ?Hroom. simpl.
    unfold http. simpl.
    match goal with
    | |- context [server ?tr] => destruct (server tr) as [|status [body|]]
    end; simpl; try discriminate.
    intros [= <- <-]. split; [reflexivity|]. simpl. eauto.
Qed.

Lemma get_access_token_fails (w : state) :
  refresh_fails (server (trace w ++ [refresh_request])%list) ->
  get_access_token w = (Ok false, push_request refresh_request w).
Proof.
  intros Hfail. rewrite get_access_token_cases. cbv zeta.
  change (trace (push_request refresh_request w))
    with (trace w ++ [refresh_request])%list.
  destruct Hfail as [-> | (status & body & -> & Hne)]; [reflexivity|].
  destruct body as [[]|]; try reflexivity.
  destruct (status =? 200) eqn:Hs; [|reflexivity].
  apply Z.eqb_eq in Hs. contradiction.
Qed.



(** X11. A failure of the post itself is not caught by [send_message] and
    [send_motion]: a transport failure is raised as it is, and so is the
    failure to decode the response body, whatever the status. *)
Theorem post_failures_propagate (w w1 : state) (room_id : json) :
  ensure_valid_token w = (Ok true, w1) ->
  let target := if truthy room_id then room_id else default_room_id w1 in
  truthy target = true ->
  (forall text,
      let data := JDict [("text", text);
                         ("unique_id",
                          JStr (str_int (Z.quot (clock (ticks w1)) 1000)))] in
      let answer :=
        server (trace w1 ++ [message_request (access_token w1) target data])%list in
      (answer = TransportFailure ->
       exists w', send_message text room_id w = (Raise ClientError, w'))
      /\ (forall status,
            answer = Response status None ->
            exists w', send_message text room_id w = (Raise ContentTypeError, w')))
  /\ (forall motion_data,
        let answer :=
          server (trace w1 ++ [motion_request (access_token w1) target motion_data])%list in
        (answer = TransportFailure ->
         exists w', send_motion motion_data room_id w = (Raise ClientError, w'))
        /\ (forall status,
              answer = Response status None ->
              exists w',
                send_motion motion_data room_id w = (Raise ContentTypeError, w'))).
Proof.
  intros Hvalid target Htarget. split.
  - intros text data answer. split.
    + intros Ha. unfold send_message, bind. rewrite Hvalid. simpl.
      unfold gets. fold target. rewrite Htarget. simpl.
      unfold now, http. simpl. fold data. fold answer. rewrite Ha.
      eexists. reflexivity.
    + intros status Ha. unfold send_message, bind. rewrite Hvalid. simpl.
      unfold gets. fold target. rewrite Htarget. simpl.
      unfold now, http. simpl. fold data. fold answer. rewrite Ha. simpl.
      eexists. reflexivity.
  - intros motion_data answer. split.
    + intros Ha. unfold send_motion, bind. rewrite Hvalid. simpl.
      unfold gets. fold target. rewrite Htarget. simpl.
      unfold http. simpl. fold answer. rewrite Ha.
      eexists. reflexivity.
    + intros status Ha. unfold send_motion, bind. rewrite Hvalid. simpl.
      unfold gets. fold target. rewrite Htarget. simpl.
      unfold http. simpl. fold answer. rewrite Ha. simpl.
      eexists. reflexivity.
Qed.

(** X12. When the refresh of the initialisation fails, every tool
    invocation, whatever its name and arguments, returns the text of the
    token failure after that single request. *)
Theorem call_tool_token_failure (w : state) (name : string)
    (arguments : list (string * json)) :
  refresh_fails (server (trace w ++ [refresh_request])%list) ->
  call_tool name arguments w
  = ("エラーが発生しました: アクセストークンの取得に失敗しました",
     push_request refresh_request (new_client w)).
Proof.
  intros Hfail. unfold call_tool, bind, initialize, bind.
  rewrite (get_access_token_fails (new_client w) Hfail). reflexivity.
Qed.

(** X13. A tool name that [list_tools] does not list is answered, once the
    initialisation has succeeded, with the unknown-tool text. *)
Theorem call_tool_unknown_tool (w : state) (name : string)
    (arguments : list (string * json)) :
  ~ In name (map tool_name list_tools) ->
  call_tool name arguments w
  = match initialize (new_client w) with
    | (Ok _, w') => ("エラー: 不明なツール '" ++ name ++ "'", w')
    | (Raise e, w') => (error_text e, w')
    end.
Proof.
  intros Hout. unfold call_tool, bind.
  destruct (initialize (new_client w)) as [[[]|e] wi]; [|reflexivity].
  unfold dispatch.
  repeat match goal with
         | |- context [String.eqb name ?k] =>
             destruct (String.eqb_spec name k) as [Heq|_];
             [exfalso; apply Hout; rewrite Heq; simpl; tauto|]
         end.
  reflexivity.
Qed.

(** X14. For every listed tool and every argument its schema requires, an
    invocation without that argument is answered, once the initialisation
    has succeeded, with the error text of the missing key. *)
Theorem call_tool_missing_argument (w : state) (t : tool) (k : string)
    (arguments : list (string * json)) :
  In t list_tools ->
  In (JStr k) (schema_required (inputSchema t)) ->
  lookup k arguments = None ->
  call_tool (tool_name t) arguments w
  = match initialize (new_client w) with
    | (Ok _, w') => ("エラーが発生しました: " ++ repr_str k, w')
    | (Raise e, w') => (error_text e, w')
    end.
Proof.
  intros Ht Hk Hmissing. unfold call_tool, bind.
  destruct (initialize (new_client w)) as [[[]|e] wi]; [|reflexivity].
  simpl in Ht.
  destruct Ht as [<- | [<- | [<- | [<- | [<- | []]]]]]; simpl in Hk;
    try contradiction;
    destruct Hk as [[= <-] | []];
    unfold dispatch; simpl; unfold lift, bind; rewrite Hmissing; reflexivity.
Qed.

(** X15. The motion names that the schema of the send-motion tool allows
    are exactly the names the catalog holds. *)
Theorem schema_motions_are_catalog_keys (t : tool) (m : string) :
  In t list_tools ->
  tool_name t = "bocco_send_motion" ->
  (In (JStr m) (schema_enum (inputSchema t) "motion_name")
   <-> not_in_catalog (JStr m) = Ok false).
Proof.
  intros Ht Hname. simpl in Ht.
  destruct Ht as [<- | [<- | [<- | [<- | [<- | []]]]]];
    try discriminate Hname.
  simpl. split.
  - intros [[= <-] | [[= <-] | []]]; reflexivity.
  - destruct (String.eqb_spec m "head_shake") as [->|_]; [auto|].
    destruct (String.eqb_spec m "simple_nod") as [->|_]; [auto|].
    discriminate.
Qed.

(** *** The requests of a tool invocation *)

Lemma sends_weaken {A} (P Q : request -> Prop) (m : M A) :
  (forall r, P r -> Q r) -> sends P m -> sends Q m.
Proof.
  intros HPQ Hm w. destruct (Hm w) as (added & Ht & Hp).
  exists added. split; [exact Ht|]. apply (Forall_impl _ HPQ Hp).
Qed.

Lemma sends_send_message (text room_id : json) :
  sends is_client_request (send_message text room_id).
Proof.
  unfold send_message.
  repeat first
    [ apply (sends_weaken is_init_request);
      [intros r Hr; left; exact Hr | apply sends_ensure_valid_token]
    | apply sends_http; right; left; eexists _, _, _; reflexivity
    | sends_step ].
Qed.

Lemma sends_send_motion (motion_data room_id : json) :
  sends is_client_request (send_motion motion_data room_id).
Proof.
  unfold send_motion.
  repeat first
    [ apply (sends_weaken is_init_request);
      [intros r Hr; left; exact Hr | apply sends_ensure_valid_token]
    | apply sends_http; right; right; eexists _, _, _; reflexivity
    | sends_step ].
Qed.

Lemma sends_get_rooms_info : sends is_init_request get_rooms_info.
Proof.
  unfold get_rooms_info.
  repeat first [apply sends_fetch_rooms | sends_step].
Qed.

Lemma sends_find_room_id (P : request -> Prop) (room_name : json) :
  sends P (find_room_id room_name).
Proof. unfold find_room_id. repeat sends_step. Qed.

Lemma sends_used_room_name (P : request -> Prop) (result : json) :
  sends P (used_room_name result).
Proof. unfold used_room_name. repeat sends_step. Qed.

Lemma sends_dispatch (name : string) (arguments : list (string * json)) :
  sends is_client_request (dispatch name arguments).
Proof.
  unfold dispatch.
  repeat first
    [ apply sends_send_message | apply sends_send_motion
    | apply sends_find_room_id | apply sends_used_room_name
    | apply (sends_weaken is_init_request);
      [intros r Hr; left; exact Hr | apply sends_get_rooms_info]
    | sends_step ].
Qed.

(** X16. Every tool invocation authenticates anew: the first request it
    sends is the token refresh, and every later one is a refresh, a room
    listing, or a post to the message or motion endpoint of a room. *)
Theorem call_tool_requests (w : state) (name : string)
    (arguments : list (string * json)) :
  exists rest,
    trace (snd (call_tool name arguments w))
    = (trace w ++ refresh_request :: rest)%list
    /\ Forall is_client_request rest.
Proof.
  assert (Hrun : exists rest,
             trace (snd ((initialize ;;; dispatch name arguments)%py (new_client w)))
             = (trace w ++ refresh_request :: rest)%list
             /\ Forall is_client_request rest).
  { unfold initialize. unfold bind at 1 2.
    destruct (get_access_token_frame (new_client w)) as (b & w1 & -> & Ht & _).
    simpl in Ht.
    assert (Hrest : sends is_client_request
              ((if negb b
                then raise (Exception "アクセストークンの取得に失敗しました")
                else (fetch_rooms ;;; r <- gets rooms ;; lift (py_len r) ;;; ret tt))
               ;;; dispatch name arguments)%py).
    { apply sends_bind; [|intros ?; apply sends_dispatch].
      apply (sends_weaken is_init_request); [intros r Hr; left; exact Hr|].
      repeat first [apply sends_fetch_rooms | sends_step]. }
    destruct (Hrest w1) as (rest & Hr & Hp).
    exists rest. split; [|exact Hp].
    unfold bind in Hr. rewrite Ht in Hr. rewrite <- app_assoc in Hr. exact Hr. }
  destruct Hrun as (rest & Hr & Hp). exists rest. split; [|exact Hp].
  unfold call_tool.
  destruct ((initialize ;;; dispatch name arguments)%py (new_client w))
    as [[text|e] w']; exact Hr.
Qed.

(** X17. The two room tools never post to a room: [bocco_get_rooms] and
    [bocco_list_rooms] send token refreshes and room listings only. *)
Theorem room_tools_send_no_post (w : state) (name : string)
    (arguments : list (string * json)) :
  name = "bocco_get_rooms" \/ name = "bocco_list_rooms" ->
  exists added,
    trace (snd (call_tool name arguments w)) = (trace w ++ added)%list
    /\ Forall is_init_request added
    /\ Forall (fun r =>
                 (forall token target data, r <> message_request token target data)
                 /\ (forall token target motion_data,
                       r <> motion_request token target motion_data)) added.
Proof.
  intros Hname.
  assert (Hsends : sends is_init_request (initialize ;;; dispatch name arguments)%py).
  { apply sends_bind; [apply sends_initialize|intros _].
    destruct Hname as [-> | ->]; unfold dispatch; simpl;
      repeat first [apply sends_get_rooms_info | sends_step]. }
  destruct (Hsends (new_client w)) as (added & Ht & Hp).
  exists added. split; [|split; [exact Hp|]].
  - unfold call_tool.
    destruct ((initialize ;;; dispatch name arguments)%py (new_client w))
      as [[text|e] w']; exact Ht.
  - refine (Forall_impl _ _ Hp).
    intros r [-> | (tok & ->)]; split; intros; discriminate.
Qed.

(** X18. After a successful refresh read at clock value [t0] with a
    lifetime of [n] seconds, the expiry [t0 + n s] lying in the range of
    [datetime] and at least five minutes after its start, the next
    [ensure_valid_token] sends nothing when the next clock reading is at
    most [t0 + n s - 5 min] and refreshes again otherwise; so a token that
    lives five minutes or less is refreshed again at every later use. *)
Theorem refreshed_token_validity (w : state) (fields : list (string * json))
    (token : json) (n : Z) :
  server (trace w ++ [refresh_request])%list = Response 200 (Some (JDict fields)) ->
  lookup "access_token" fields = Some token ->
  truthy token = true ->
  lookup "expires_in" fields = Some (JInt n) ->
  datetime_min <= clock (ticks w) <= datetime_max ->
  datetime_min + five_minutes <= clock (ticks w) + n * 1000000 ->
  clock (ticks w) + n * 1000000 <= datetime_max ->
  exists w1,
    get_access_token w = (Ok true, w1)
    /\ (clock (S (ticks w)) <= clock (ticks w) + n * 1000000 - five_minutes ->
        ensure_valid_token w1 = (Ok true, tick w1))
    /\ (clock (ticks w) + n * 1000000 - five_minutes < clock (S (ticks w)) ->
        exists b w2, ensure_valid_token w1 = (Ok b, w2)
          /\ trace w2 = (trace w1 ++ [refresh_request])%list)
    /\ (n <= 300 -> clock (ticks w) < clock (S (ticks w)) ->
        exists b w2, ensure_valid_token w1 = (Ok b, w2)
          /\ trace w2 = (trace w1 ++ [refresh_request])%list).
Proof.
  intros Hanswer Htoken Htruthy Hexp Hnow Hlow Hhigh.
  pose proof (get_access_token_cases w) as Hc. cbv zeta in Hc.
  change (trace (push_request refresh_request w))
    with (trace w ++ [refresh_request])%list in Hc.
  rewrite Hanswer in Hc. simpl in Hc. rewrite Htoken in Hc.
  unfold dict_get in Hc. rewrite Hexp in Hc.
  rewrite (token_expiry_in_range n (clock (ticks w))) in Hc;
    [|exact Hnow|unfold five_minutes in Hlow; lia].
  eexists. split; [exact Hc|].
  match goal with
  | |- context [ensure_valid_token ?w1] =>
      pose proof (ensure_valid_token_by_need w1) as Hneed;
      unfold needs_refresh in Hneed; simpl in Hneed
  end.
  rewrite Htruthy in Hneed. simpl in Hneed.
  assert (Hlater :
            clock (ticks w) + n * 1000000 - five_minutes < clock (S (ticks w)) ->
            exists b w2,
              ensure_valid_token
                (set_token_expires_at (clock (ticks w) + n * 1000000)
                   (tick (set_access_token token (push_request refresh_request w))))
              = (Ok b, w2)
              /\ trace w2
                 = (trace (set_token_expires_at (clock (ticks w) + n * 1000000)
                             (tick (set_access_token token
                                      (push_request refresh_request w))))
                    ++ [refresh_request])%list).
  { intros Hlt.
    destruct (clock (S (ticks w)) >? clock (ticks w) + n * 1000000 - five_minutes)
      eqn:Hgt.
    - destruct Hneed as (b & w2 & He & Ht & _). exists b, w2. split; assumption.
    - rewrite Z.gtb_ltb in Hgt. apply Z.ltb_ge in Hgt. lia. }
  split; [|split].
  - intros Hle.
    destruct (clock (S (ticks w)) >? clock (ticks w) + n * 1000000 - five_minutes)
      eqn:Hgt.
    + apply Z.gtb_lt in Hgt. lia.
    + exact Hneed.
  - exact Hlater.
  - intros Hn Hlt. apply Hlater. unfold five_minutes. lia.
Qed.

Lemma room_name_of_found (u n : string) (items : list json) :
  forall rs, map as_room items = map Some rs ->
  NoDup (map fst rs) ->
  In (u, n) rs ->
  room_name_of (JStr u) items = Ok (JStr n).
Proof.
  induction items as [|room items IH]; intros [|[u' n'] rs] Hv Hnd Hin;
    try discriminate; [destruct Hin|].
  simpl in Hv. injection Hv as Hroom Hrest.
  apply as_room_inv in Hroom as (fields & -> & Hu & Hn).
  simpl. rewrite Hu. simpl. unfold dict_get. rewrite Hn.
  simpl in Hnd. inversion Hnd as [|x l Hnotin Hnd']; subst.
  destruct (String.eqb_spec u' u) as [->|Hne].
  - destruct Hin as [[= ->] | Hin]; [reflexivity|].
    exfalso. apply Hnotin. apply (in_map fst) in Hin. exact Hin.
  - destruct Hin as [[= -> _] | Hin]; [contradiction|].
    apply (IH rs Hrest Hnd' Hin).
Qed.

Lemma room_name_of_absent (u : string) (items : list json) :
  forall rs, map as_room items = map Some rs ->
  (forall r, In r rs -> fst r <> u) ->
  room_name_of (JStr u) items = Ok (JStr "デフォルト部屋").
Proof.
  induction items as [|room items IH]; intros [|[u' n'] rs] Hv Hout;
    try discriminate; [reflexivity|].
  simpl in Hv. injection Hv as Hroom Hrest.
  apply as_room_inv in Hroom as (fields & -> & Hu & Hn).
  simpl. rewrite Hu. simpl.
  destruct (String.eqb_spec u' u) as [->|Hne].
  - exfalso. apply (Hout (u, n')); [left; reflexivity|reflexivity].
  - apply (IH rs Hrest). intros r Hr. apply Hout. right. exact Hr.
Qed.

(** X19. The name reported for the room used: over rooms with pairwise
    distinct uuids it is the display name of the room whose uuid was
    targeted, and it is the default-room label when no room has that
    uuid. *)
Theorem used_room_name_reports_name (w : state) (items : list json)
    (rs : list (string * string)) (u : string) (status data : json) :
  rooms w = JList items ->
  map as_room items = map Some rs ->
  NoDup (map fst rs) ->
  u <> "" ->
  let result := JDict [("status", status); ("data", data); ("room_id", JStr u)] in
  (forall n, In (u, n) rs -> used_room_name result w = (Ok (JStr n), w))
  /\ ((forall r, In r rs -> fst r <> u) ->
      used_room_name result w = (Ok (JStr "デフォルト部屋"), w)).
Proof.
  intros Hrooms Hview Hnd Hu result.
  assert (Htruthy : String.eqb u "" = false).
  { destruct (String.eqb_spec u ""); [contradiction|reflexivity]. }
  split.
  - intros n Hin. unfold used_room_name, result. run.
    rewrite Htruthy. simpl. rewrite Hrooms. simpl.
    rewrite (room_name_of_found u n items rs Hview Hnd Hin). reflexivity.
  - intros Hout. unfold used_room_name, result. run.
    rewrite Htruthy. simpl. rewrite Hrooms. simpl.
    rewrite (room_name_of_absent u items rs Hview Hout). reflexivity.
Qed.


(** X21. The resolution depends on the query only through its lower-cased
    form: two room names that agree after lower-casing resolve alike. *)
Theorem resolution_ignores_query_case (query query' : string) (items : list json) :
  lower query = lower query' ->
  match_room (JStr query) items = match_room (JStr query') items.
Proof.
  intros Hsame. induction items as [|room items IH]; [reflexivity|].
  destruct room; simpl; try exact IH.
  rewrite Hsame.
  destruct (py_lower (dict_get fields "name" (JStr ""))); [|reflexivity].
  destruct (contains (lower query') a); [reflexivity|exact IH].
Qed.

Lemma match_room_none (query : string) (items : list json) :
  forall rs, map as_room items = map Some rs ->
  (forall r, In r rs -> contains (lower query) (lower (snd r)) = false) ->
  match_room (JStr query) items = Ok JNull.
Proof.
  intros rs Hview Hno. rewrite (match_room_spec query items rs Hview).
  unfold spec_resolve.
  rewrite (find_no_match (fun r => contains (lower query) (lower (snd r))) rs Hno).
  reflexivity.
Qed.

Ltac choose_branch :=
  unfold dispatch;
  repeat match goal with
         | |- context [String.eqb (String ?c ?s) (String ?d ?t)] =>
             let v := eval vm_compute in (String.eqb (String c s) (String d t)) in
             change (String.eqb (String c s) (String d t)) with v
         end;
  cbv iota.

Lemma bind_ok {A B} (m : M A) (k : A -> M B) (w w' : state) (a : A) :
  m w = (Ok a, w') -> bind m k w = k a w'.
Proof. intros H. unfold bind. rewrite H. reflexivity. Qed.

Lemma truthy_str (s : string) : s <> "" -> truthy (JStr s) = true.
Proof.
  intros Hs. simpl. destruct (String.eqb_spec s ""); [contradiction|reflexivity].
Qed.

(** X22. The message tool composes resolution, sending and reporting: when
    the room name resolves to a room of the directory (rooms with distinct,
    non-empty uuids), the token check passes and the post is answered with
    a decodable body, the text names the message, the display name of the
    resolved room and the status of the response. *)
Theorem send_message_tool_reports (w w1 : state)
    (arguments : list (string * json)) (message : json) (query : string)
    (items : list json) (rs : list (string * string)) (u n : string)
    (status : Z) (body : json) :
  lookup "message" arguments = Some message ->
  lookup "room_name" arguments = Some (JStr query) ->
  query <> "" ->
  rooms w = JList items ->
  map as_room items = map Some rs ->
  NoDup (map fst rs) ->
  spec_resolve query rs = Some u ->
  In (u, n) rs ->
  u <> "" ->
  ensure_valid_token w = (Ok true, w1) ->
  server (trace w1
          ++ [message_request (access_token w1) (JStr u)
                (JDict [("text", message);
                        ("unique_id",
                         JStr (str_int (Z.quot (clock (ticks w1)) 1000)))])])%list
    = Response status (Some body) ->
  exists w2,
    dispatch "bocco_send_message" arguments w
    = (Ok ("メッセージ「" ++ py_str message ++ "」を" ++ n
           ++ "に送信しました。" ++ nl ++ "ステータス: " ++ str_int status), w2).
Proof.
  intros Hmessage Hname Hquery Hrooms Hview Hnd Hres Hin Hu Hvalid Hserver.
  pose proof (truthy_str query Hquery) as Hq.
  pose proof (truthy_str u Hu) as Hue.
  assert (Hr1 : rooms w1 = JList items).
  { destruct (ensure_valid_token_frame w) as (b & w0 & He & _ & Hr & _).
    rewrite Hvalid in He. injection He as _ <-. rewrite Hr. exact Hrooms. }
  assert (Hfind : find_room_id (JStr query) w = (Ok (JStr u), w)).
  { unfold find_room_id. rewrite Hq.
    rewrite (bind_ok _ _ w w (JList items)); [|unfold gets; rewrite Hrooms; reflexivity].
    rewrite (bind_ok _ _ w w items); [|reflexivity].
    unfold lift. rewrite (match_room_spec query items rs Hview), Hres.
    reflexivity. }
  set (result := JDict [("status", JInt status); ("data", body);
                        ("room_id", JStr u)]).
  assert (Hsend : exists w2, send_message message (JStr u) w = (Ok result, w2)
                             /\ rooms w2 = JList items).
  { unfold send_message.
    rewrite (bind_ok _ _ w w1 true Hvalid). cbn [negb].
    rewrite (bind_ok _ _ w1 w1 (default_room_id w1)); [|reflexivity].
    cbv zeta. rewrite Hue. cbv iota. rewrite Hue. cbn [negb].
    rewrite (bind_ok _ _ w1 (tick w1) (clock (ticks w1))); [|reflexivity].
    cbv zeta.
    rewrite (bind_ok _ _ (tick w1) (tick w1) (access_token w1)); [|reflexivity].
    unfold bind at 1. unfold http. simpl trace.
    rewrite Hserver. simpl.
    eexists. split; [reflexivity|]. simpl. exact Hr1. }
  destruct Hsend as (w2 & Hsend & Hr2).
  assert (Hused : used_room_name result w2 = (Ok (JStr n), w2)).
  { unfold used_room_name.
    rewrite (bind_ok _ _ w2 w2 (JStr u)); [|reflexivity].
    rewrite Hue.
    rewrite (bind_ok _ _ w2 w2 (JList items)); [|unfold gets; rewrite Hr2; reflexivity].
    rewrite (bind_ok _ _ w2 w2 items); [|reflexivity].
    unfold lift. rewrite (room_name_of_found u n items rs Hview Hnd Hin).
    reflexivity. }
  exists w2. choose_branch.
  rewrite (bind_ok _ _ w w message);
    [|unfold lift, py_getitem; rewrite Hmessage; reflexivity].
  cbv zeta.
  replace (dict_get arguments "room_name" JNull) with (JStr query)
    by (unfold dict_get; rewrite Hname; reflexivity).
  rewrite (bind_ok _ _ w w (JStr u) Hfind).
  rewrite Hq, Hue. cbn [andb negb truthy].
  rewrite (bind_ok _ _ w w2 result Hsend).
  rewrite (bind_ok _ _ w2 w2 (JStr n) Hused).
  rewrite (bind_ok _ _ w2 w2 (JInt status)); [|reflexivity].
  reflexivity.
Qed.

(** X23. A room name that matches no room of the directory is reported
    without any request: the three tools that take a room name return a
    text and leave the state as it was, and the message tool's text lists
    the names of the rooms. *)
Theorem unresolved_room_name_sends_nothing (w : state)
    (arguments : list (string * json)) (query : string)
    (items : list json) (rs : list (string * string)) :
  lookup "room_name" arguments = Some (JStr query) ->
  query <> "" ->
  rooms w = JList items ->
  map as_room items = map Some rs ->
  (forall r, In r rs -> contains (lower query) (lower (snd r)) = false) ->
  (forall message,
      lookup "message" arguments = Some message ->
      dispatch "bocco_send_message" arguments w
      = (Ok ("エラー: 部屋「" ++ query
             ++ "」が見つかりません。利用可能な部屋: "
             ++ py_repr (JList (map (fun r => JStr (snd r)) rs))), w))
  /\ (forall m,
        lookup "motion_name" arguments = Some (JStr m) ->
        lookup m PREDEFINED_MOTIONS <> None ->
        exists text, dispatch "bocco_send_motion" arguments w = (Ok text, w))
  /\ (forall motion_json,
        lookup "motion_json" arguments = Some motion_json ->
        exists text, dispatch "bocco_custom_motion" arguments w = (Ok text, w)).
Proof.
  intros Hname Hquery Hrooms Hview Hno.
  pose proof (truthy_str query Hquery) as Hq.
  assert (Harg : dict_get arguments "room_name" JNull = JStr query).
  { unfold dict_get. rewrite Hname. reflexivity. }
  assert (Hfind : find_room_id (JStr query) w = (Ok JNull, w)).
  { unfold find_room_id. rewrite Hq.
    rewrite (bind_ok _ _ w w (JList items)); [|unfold gets; rewrite Hrooms; reflexivity].
    rewrite (bind_ok _ _ w w items); [|reflexivity].
    unfold lift. rewrite (match_room_none query items rs Hview Hno).
    reflexivity. }
  assert (Hnames : available_names items = map (fun r => JStr (snd r)) rs).
  { clear Hrooms Hno Hfind. revert rs Hview.
    induction items as [|room items IH]; intros [|[u n] rs] Hv;
      try discriminate; [reflexivity|].
    simpl in Hv. injection Hv as Hroom Hrest.
    apply as_room_inv in Hroom as (fields & -> & Hu & Hn).
    simpl. unfold dict_get. rewrite Hn. simpl. f_equal. apply IH, Hrest. }
  split; [|split].
  - intros message Hmessage. choose_branch.
    rewrite (bind_ok _ _ w w message);
      [|unfold lift, py_getitem; rewrite Hmessage; reflexivity].
    cbv zeta. rewrite Harg.
    rewrite (bind_ok _ _ w w JNull Hfind).
    rewrite Hq. cbn [andb negb truthy].
    rewrite (bind_ok _ _ w w (JList items)); [|unfold gets; rewrite Hrooms; reflexivity].
    rewrite (bind_ok _ _ w w items); [|reflexivity].
    unfold ret, room_not_found_listing. rewrite Hnames. reflexivity.
  - intros m Hm Hin. choose_branch.
    rewrite (bind_ok _ _ w w (JStr m));
      [|unfold lift, py_getitem; rewrite Hm; reflexivity].
    cbv zeta. rewrite Harg.
    rewrite (bind_ok _ _ w w false).
    2: { unfold lift, not_in_catalog.
         destruct (lookup m PREDEFINED_MOTIONS); [reflexivity|contradiction]. }
    cbv iota.
    rewrite (bind_ok _ _ w w JNull Hfind).
    rewrite Hq. cbn [andb negb truthy].
    eexists. reflexivity.
  - intros motion_json Hm. choose_branch.
    rewrite (bind_ok _ _ w w motion_json);
      [|unfold lift, py_getitem; rewrite Hm; reflexivity].
    cbv zeta. rewrite Harg.
    rewrite (bind_ok _ _ w w JNull Hfind).
    rewrite Hq. cbn [andb negb truthy].
    eexists. reflexivity.
Qed.

(** *** A falsy room name *)

Lemma bind_raise {A B} (m : M A) (k : A -> M B) (w w' : state) (e : exn) :
  m w = (Raise e, w') -> bind m k w = (Raise e, w').
Proof. intros H. unfold bind. rewrite H. reflexivity. Qed.

Lemma used_room_name_state (result : json) (w : state) :
  snd (used_room_name result w) = w.
Proof.
  unfold used_room_name, bind, lift, gets, ret.
  destruct (py_getitem result "room_id") as [target|]; [|reflexivity].
  destruct (truthy target); [|reflexivity].
  destruct (py_iter (rooms w)) as [items|]; [|reflexivity].
  destruct (room_name_of target items); reflexivity.
Qed.

Ltac step_bind :=
  match goal with
  | |- context [bind ?m ?k ?w] =>
      let o := fresh "o" in
      let w' := fresh "w" in
      let H := fresh "H" in
      destruct (m w) as [[o|o] w'] eqn:H;
      [rewrite (bind_ok m k w w' o H) | rewrite (bind_raise m k w w' o H)];
      cbv beta
  | |- context [if ?b then _ else _] => destruct b
  end.

(** With a falsy room name the three tools that take one never answer
    with a room-not-found text. *)
Lemma falsy_room_name_text (w : state) (name : string)
    (arguments : list (string * json)) :
  truthy (dict_get arguments "room_name" JNull) = false ->
  name = "bocco_send_message" \/ name = "bocco_send_motion"
  \/ name = "bocco_custom_motion" ->
  String.prefix "エラー: 部屋" (fst (call_tool name arguments w)) = false.
Proof.
  intros Hfalsy Hname. unfold call_tool.
  destruct Hname as [-> | [-> | ->]]; step_bind; try reflexivity;
    choose_branch; cbv zeta; rewrite Hfalsy; cbn [andb];
    repeat step_bind; reflexivity.
Qed.

Lemma room_not_found_prefix (query : json) (items : list json) :
  String.prefix "エラー: 部屋" (room_not_found query) = true
  /\ String.prefix "エラー: 部屋" (room_not_found_listing query items) = true.
Proof. split; reflexivity. Qed.

Lemma find_room_id_falsy (room_name : json) (w : state) :
  truthy room_name = false -> find_room_id room_name w = (Ok JNull, w).
Proof. intros H. unfold find_room_id. rewrite H. reflexivity. Qed.

(** With no room id, a valid token and a default room, the post goes to
    the default room. *)
Lemma send_message_to_default (w w1 : state) (text : json) (status : Z) (body : json) :
  ensure_valid_token w = (Ok true, w1) ->
  truthy (default_room_id w) = true ->
  let data := JDict [("text", text);
                     ("unique_id", JStr (str_int (Z.quot (clock (ticks w1)) 1000)))] in
  let post := message_request (access_token w1) (default_room_id w) data in
  server (trace w1 ++ [post])%list = Response status (Some body) ->
  send_message text JNull w
  = (Ok (JDict [("status", JInt status); ("data", body);
                ("room_id", default_room_id w)]),
     push_request post (tick w1)).
Proof.
  intros Hvalid Hdefault data post Hserver.
  assert (Hd : default_room_id w1 = default_room_id w).
  { destruct (ensure_valid_token_frame w) as (b & w0 & He & _ & _ & Hd).
    rewrite Hvalid in He. injection He as _ <-. exact Hd. }
  unfold send_message.
  rewrite (bind_ok _ _ w w1 true Hvalid). cbn [negb].
  rewrite (bind_ok _ _ w1 w1 (default_room_id w)); [|unfold gets; rewrite Hd; reflexivity].
  cbv zeta. cbn [truthy]. rewrite Hdefault. cbn [negb].
  rewrite (bind_ok _ _ w1 (tick w1) (clock (ticks w1))); [|reflexivity].
  rewrite (bind_ok _ _ (tick w1) (tick w1) (access_token w1)); [|reflexivity].
  unfold bind at 1. unfold http. simpl trace. fold data. fold post.
  rewrite Hserver. reflexivity.
Qed.

Lemma send_motion_to_default (w w1 : state) (motion_data : json) (status : Z)
    (body : json) :
  ensure_valid_token w = (Ok true, w1) ->
  truthy (default_room_id w) = true ->
  let post := motion_request (access_token w1) (default_room_id w) motion_data in
  server (trace w1 ++ [post])%list = Response status (Some body) ->
  send_motion motion_data JNull w
  = (Ok (JDict [("status", JInt status); ("data", body);
                ("room_id", default_room_id w)]),
     push_request post w1).
Proof.
  intros Hvalid Hdefault post Hserver.
  assert (Hd : default_room_id w1 = default_room_id w).
  { destruct (ensure_valid_token_frame w) as (b & w0 & He & _ & _ & Hd).
    rewrite Hvalid in He. injection He as _ <-. exact Hd. }
  unfold send_motion.
  rewrite (bind_ok _ _ w w1 true Hvalid). cbn [negb].
  rewrite (bind_ok _ _ w1 w1 (default_room_id w)); [|unfold gets; rewrite Hd; reflexivity].
  cbv zeta. cbn [truthy]. rewrite Hdefault. cbn [negb].
  rewrite (bind_ok _ _ w1 w1 (access_token w1)); [|reflexivity].
  unfold bind at 1. unfold http. simpl trace. fold post.
  rewrite Hserver. reflexivity.
Qed.

Lemma message_tool_default_target (w wi w1 : state)
    (arguments : list (string * json)) (message : json) (status : Z) (body : json) :
  truthy (dict_get arguments "room_name" JNull) = false ->
  initialize (new_client w) = (Ok tt, wi) ->
  lookup "message" arguments = Some message ->
  ensure_valid_token wi = (Ok true, w1) ->
  truthy (default_room_id wi) = true ->
  let data := JDict [("text", message);
                     ("unique_id", JStr (str_int (Z.quot (clock (ticks w1)) 1000)))] in
  let post := message_request (access_token w1) (default_room_id wi) data in
  server (trace w1 ++ [post])%list = Response status (Some body) ->
  let result := JDict [("status", JInt status); ("data", body);
                       ("room_id", default_room_id wi)] in
  call_tool "bocco_send_message" arguments w
  = (match fst (used_room_name result (push_request post (tick w1))) with
     | Ok used =>
         "メッセージ「" ++ py_str message ++ "」を" ++ py_str used
         ++ "に送信しました。" ++ nl ++ "ステータス: " ++ str_int status
     | Raise e => error_text e
     end,
     push_request post (tick w1)).
Proof.
  intros Hfalsy Hinit Hmessage Hvalid Hdefault data post Hserver result.
  pose proof (send_message_to_default wi w1 message status body Hvalid Hdefault
                Hserver) as Hsend.
  fold data in Hsend. fold post in Hsend. fold result in Hsend.
  pose proof (used_room_name_state result (push_request post (tick w1))) as Hstate.
  unfold call_tool. rewrite (bind_ok _ _ (new_client w) wi tt Hinit).
  choose_branch.
  rewrite (bind_ok _ _ wi wi message);
    [|unfold lift, py_getitem; rewrite Hmessage; reflexivity].
  cbv zeta.
  rewrite (bind_ok _ _ wi wi JNull (find_room_id_falsy _ wi Hfalsy)).
  rewrite Hfalsy. cbn [andb].
  rewrite (bind_ok _ _ wi _ result Hsend).
  destruct (used_room_name result (push_request post (tick w1)))
    as [[used|e] w3] eqn:Hused; simpl in Hstate; subst w3.
  - rewrite (bind_ok _ _ _ _ used Hused).
    rewrite (bind_ok _ _ _ (push_request post (tick w1)) (JInt status));
      [|reflexivity].
    reflexivity.
  - rewrite (bind_raise _ _ _ _ e Hused). reflexivity.
Qed.

Lemma motion_tool_default_target (w wi w1 : state)
    (arguments : list (string * json)) (m : string) (doc : json)
    (status : Z) (body : json) :
  truthy (dict_get arguments "room_name" JNull) = false ->
  initialize (new_client w) = (Ok tt, wi) ->
  lookup "motion_name" arguments = Some (JStr m) ->
  lookup m PREDEFINED_MOTIONS = Some doc ->
  ensure_valid_token wi = (Ok true, w1) ->
  truthy (default_room_id wi) = true ->
  let post := motion_request (access_token w1) (default_room_id wi) doc in
  server (trace w1 ++ [post])%list = Response status (Some body) ->
  let result := JDict [("status", JInt status); ("data", body);
                       ("room_id", default_room_id wi)] in
  call_tool "bocco_send_motion" arguments w
  = (match fst (used_room_name result (push_request post w1)) with
     | Ok used =>
         "モーション「" ++ m ++ "」を" ++ py_str used
         ++ "で実行しました。" ++ nl ++ "ステータス: " ++ str_int status
     | Raise e => error_text e
     end,
     push_request post w1).
Proof.
  intros Hfalsy Hinit Hname Hdoc Hvalid Hdefault post Hserver result.
  pose proof (send_motion_to_default wi w1 doc status body Hvalid Hdefault
                Hserver) as Hsend.
  fold post in Hsend. fold result in Hsend.
  pose proof (used_room_name_state result (push_request post w1)) as Hstate.
  unfold call_tool. rewrite (bind_ok _ _ (new_client w) wi tt Hinit).
  choose_branch.
  rewrite (bind_ok _ _ wi wi (JStr m));
    [|unfold lift, py_getitem; rewrite Hname; reflexivity].
  cbv zeta.
  rewrite (bind_ok _ _ wi wi false);
    [|unfold lift, not_in_catalog; rewrite Hdoc; reflexivity].
  cbv iota.
  rewrite (bind_ok _ _ wi wi JNull (find_room_id_falsy _ wi Hfalsy)).
  rewrite Hfalsy. cbn [andb].
  rewrite (bind_ok _ _ wi wi doc);
    [|unfold lift, py_getitem, py_str; rewrite Hdoc; reflexivity].
  rewrite (bind_ok _ _ wi _ result Hsend).
  destruct (used_room_name result (push_request post w1))
    as [[used|e] w3] eqn:Hused; simpl in Hstate; subst w3.
  - rewrite (bind_ok _ _ _ _ used Hused).
    rewrite (bind_ok _ _ _ (push_request post w1) (JInt status)); [|reflexivity].
    reflexivity.
  - rewrite (bind_raise _ _ _ _ e Hused). reflexivity.
Qed.

Lemma custom_tool_default_target (w wi w1 : state)
    (arguments : list (string * json)) (motion_json : json)
    (status : Z) (body : json) :
  truthy (dict_get arguments "room_name" JNull) = false ->
  initialize (new_client w) = (Ok tt, wi) ->
  lookup "motion_json" arguments = Some motion_json ->
  ensure_valid_token wi = (Ok true, w1) ->
  truthy (default_room_id wi) = true ->
  let post := motion_request (access_token w1) (default_room_id wi) motion_json in
  server (trace w1 ++ [post])%list = Response status (Some body) ->
  call_tool "bocco_custom_motion" arguments w
  = ("カスタムモーションを送信しました。" ++ nl ++ "ステータス: " ++ str_int status,
     push_request post w1).
Proof.
  intros Hfalsy Hinit Hdoc Hvalid Hdefault post Hserver.
  pose proof (send_motion_to_default wi w1 motion_json status body Hvalid Hdefault
                Hserver) as Hsend.
  fold post in Hsend.
  unfold call_tool. rewrite (bind_ok _ _ (new_client w) wi tt Hinit).
  choose_branch.
  rewrite (bind_ok _ _ wi wi motion_json);
    [|unfold lift, py_getitem; rewrite Hdoc; reflexivity].
  cbv zeta.
  rewrite (bind_ok _ _ wi wi JNull (find_room_id_falsy _ wi Hfalsy)).
  rewrite Hfalsy. cbn [andb].
  rewrite (bind_ok _ _ wi _ _ Hsend).
  rewrite (bind_ok _ _ _ (push_request post w1) (JInt status)); [|reflexivity].
  reflexivity.
Qed.

(** C10. For every tool that accepts a room name, an empty string as
    [room_name] is treated as an omitted one: the invocation behaves
    exactly as without the argument; no resolution is attempted and the
    text returned is never a room-not-found text; and, the initialisation
    and the token check having succeeded and a default room being set, the
    post of the action goes to the default room and the invocation returns
    the text of the action. *)
Theorem empty_room_name_is_omitted (w : state) (name : string)
    (arguments arguments' : list (string * json)) :
  lookup "room_name" arguments = Some (JStr "") ->
  lookup "room_name" arguments' = None ->
  (forall k, k <> "room_name" -> lookup k arguments = lookup k arguments') ->
  call_tool name arguments w = call_tool name arguments' w
  /\ (forall w0, find_room_id (dict_get arguments "room_name" JNull) w0 = (Ok JNull, w0))
  /\ (name = "bocco_send_message" \/ name = "bocco_send_motion"
      \/ name = "bocco_custom_motion" ->
      String.prefix "エラー: 部屋" (fst (call_tool name arguments w)) = false)
  /\ (forall query items,
        String.prefix "エラー: 部屋" (room_not_found query) = true
        /\ String.prefix "エラー: 部屋" (room_not_found_listing query items) = true)
  /\ (forall wi w1 message status body,
        initialize (new_client w) = (Ok tt, wi) ->
        lookup "message" arguments = Some message ->
        ensure_valid_token wi = (Ok true, w1) ->
        truthy (default_room_id wi) = true ->
        let data := JDict [("text", message);
                           ("unique_id",
                            JStr (str_int (Z.quot (clock (ticks w1)) 1000)))] in
        let post := message_request (access_token w1) (default_room_id wi) data in
        server (trace w1 ++ [post])%list = Response status (Some body) ->
        let result := JDict [("status", JInt status); ("data", body);
                             ("room_id", default_room_id wi)] in
        trace (snd (call_tool "bocco_send_message" arguments w))
        = (trace w1 ++ [post])%list
        /\ fst (call_tool "bocco_send_message" arguments w)
           = match fst (used_room_name result (push_request post (tick w1))) with
             | Ok used =>
                 "メッセージ「" ++ py_str message ++ "」を" ++ py_str used
                 ++ "に送信しました。" ++ nl ++ "ステータス: " ++ str_int status
             | Raise e => error_text e
             end)
  /\ (forall wi w1 m doc status body,
        initialize (new_client w) = (Ok tt, wi) ->
        lookup "motion_name" arguments = Some (JStr m) ->
        lookup m PREDEFINED_MOTIONS = Some doc ->
        ensure_valid_token wi = (Ok true, w1) ->
        truthy (default_room_id wi) = true ->
        let post := motion_request (access_token w1) (default_room_id wi) doc in
        server (trace w1 ++ [post])%list = Response status (Some body) ->
        let result := JDict [("status", JInt status); ("data", body);
                             ("room_id", default_room_id wi)] in
        trace (snd (call_tool "bocco_send_motion" arguments w))
        = (trace w1 ++ [post])%list
        /\ fst (call_tool "bocco_send_motion" arguments w)
           = match fst (used_room_name result (push_request post w1)) with
             | Ok used =>
                 "モーション「" ++ m ++ "」を" ++ py_str used
                 ++ "で実行しました。" ++ nl ++ "ステータス: " ++ str_int status
             | Raise e => error_text e
             end)
  /\ (forall wi w1 motion_json status body,
        initialize (new_client w) = (Ok tt, wi) ->
        lookup "motion_json" arguments = Some motion_json ->
        ensure_valid_token wi = (Ok true, w1) ->
        truthy (default_room_id wi) = true ->
        let post :=
          motion_request (access_token w1) (default_room_id wi) motion_json in
        server (trace w1 ++ [post])%list = Response status (Some body) ->
        trace (snd (call_tool "bocco_custom_motion" arguments w))
        = (trace w1 ++ [post])%list
        /\ fst (call_tool "bocco_custom_motion" arguments w)
           = "カスタムモーションを送信しました。" ++ nl
             ++ "ステータス: " ++ str_int status).
Proof.
  intros Hempty Habsent Hsame.
  assert (Ha : dict_get arguments "room_name" JNull = JStr "").
  { unfold dict_get. rewrite Hempty. reflexivity. }
  assert (Ha' : dict_get arguments' "room_name" JNull = JNull).
  { unfold dict_get. rewrite Habsent. reflexivity. }
  assert (Hfalsy : truthy (dict_get arguments "room_name" JNull) = false).
  { rewrite Ha. reflexivity. }
  split; [|split; [|split; [|split; [|split; [|split]]]]].
  - unfold call_tool.
    rewrite (dispatch_room_name_falsy name arguments arguments'); try assumption.
    + reflexivity.
    + rewrite Ha'. reflexivity.
  - intros w0. apply find_room_id_falsy, Hfalsy.
  - intros Hname. apply (falsy_room_name_text w name arguments Hfalsy Hname).
  - intros query items. apply room_not_found_prefix.
  - intros wi w1 message status body Hinit Hmessage Hvalid Hdefault data post
           Hserver result.
    rewrite (message_tool_default_target w wi w1 arguments message status body
               Hfalsy Hinit Hmessage Hvalid Hdefault Hserver).
    split; reflexivity.
  - intros wi w1 m doc status body Hinit Hname Hdoc Hvalid Hdefault post
           Hserver result.
    rewrite (motion_tool_default_target w wi w1 arguments m doc status body
               Hfalsy Hinit Hname Hdoc Hvalid Hdefault Hserver).
    split; reflexivity.
  - intros wi w1 motion_json status body Hinit Hdoc Hvalid Hdefault post Hserver.
    rewrite (custom_tool_default_target w wi w1 arguments motion_json status body
               Hfalsy Hinit Hdoc Hvalid Hdefault Hserver).
    split; reflexivity.
Qed.

End Server.

(** ** Concrete runs

    The runs below use the sample environment: the credential ["R"], a
    scripted server and a clock that always reads 0 unless stated. *)

(** A fetch of [Office; エモちゃんの部屋] makes the second room the default. *)
Lemma fetch_rooms_default_room_witness :
  let srv := scripted [token_reply 3600;
                       Response 200 (Some (JList [room "B" "Office";
                                                  room "A" "エモちゃんの部屋"]))] in
  exists w2,
    fetch_rooms ascii_lower quoted "R" srv (fun _ => 0) start = (Ok true, w2)
    /\ default_room_id w2 = JStr "A".
Proof.
  intros srv.
  destruct (fetch_rooms_default_room ascii_lower quoted "R" srv (fun _ => 0)
              start
              (snd (ensure_valid_token "R" srv (fun _ => 0) start))
              (JList [room "B" "Office"; room "A" "エモちゃんの部屋"])
              [room "B" "Office"; room "A" "エモちゃんの部屋"]
              [("B", "Office"); ("A", "エモちゃんの部屋")])
    as (w2 & Hf & _ & Hd & _).
  - reflexivity.
  - reflexivity.
  - left. reflexivity.
  - reflexivity.
  - exists w2. split; [exact Hf|exact Hd].
Defined.

(** The query "kitchen" resolves to the room named "Kitchen Assistant". *)
Lemma find_room_id_resolves_witness :
  let w := mkState (JStr "T") (Some 3600000000)
                   (JList [room "O1" "Office"; room "K1" "Kitchen Assistant"])
                   (JStr "O1") [] 0 in
  find_room_id ascii_lower (JStr "kitchen") w = (Ok (JStr "K1"), w).
Proof.
  intros w.
  destruct (find_room_id_resolves ascii_lower w "kitchen"
              [room "O1" "Office"; room "K1" "Kitchen Assistant"]
              [("O1", "Office"); ("K1", "Kitchen Assistant")])
    as (room_id & Hf & Heq & _).
  - discriminate.
  - reflexivity.
  - reflexivity.
  - intros r [<- | [<- | []]]; discriminate.
  - rewrite Heq in Hf. exact Hf.
Defined.

(** C4, the claim as stated fails: an unknown motion name is answered
    after the two requests of the session initialisation have been sent. *)
Lemma unknown_motion_sends_requests :
  let srv := scripted [token_reply 3600; Response 200 (Some (JList []))] in
  let run := call_tool ascii_lower quoted plain_dumps plain_message "R" srv
                       (fun _ => 0) JNull JNull in
  trace (snd (run "bocco_send_motion" [("motion_name", JStr "dance")] start))
  = [refresh_request "R"; rooms_request quoted (JStr "T")]
  /\ trace (snd (run "bocco_send_motion" [("motion_name", JStr "dance")] start))
     <> trace start.
Proof.
  split; [reflexivity|discriminate].
Qed.

Lemma call_tool_unknown_motion_witness :
  let srv := scripted [token_reply 3600; Response 200 (Some (JList []))] in
  fst (call_tool ascii_lower quoted plain_dumps plain_message "R" srv
                 (fun _ => 0) JNull JNull
                 "bocco_send_motion" [("motion_name", JStr "dance")] start)
  = "エラー: モーション 'dance' が見つかりません。利用可能なモーション: ['head_shake', 'simple_nod']".
Proof.
  intros srv.
  destruct (call_tool_unknown_motion ascii_lower quoted plain_dumps plain_message
              "R" srv (fun _ => 0) JNull JNull start
              [("motion_name", JStr "dance")] "dance")
    as (_ & Hcall & _).
  - reflexivity.
  - reflexivity.
  - rewrite Hcall. reflexivity.
Defined.



(** C6, the claim as stated fails: the record of [get_rooms_info] has no
    [room_id] entry, and its status is not the status of a response, since
    no request is sent. *)
Lemma get_rooms_info_has_no_room_id :
  let srv := scripted [] in
  let w := mkState (JStr "T") (Some 3600000000) (JList [room "A" "Office"])
                   (JStr "A") [] 0 in
  get_rooms_info ascii_lower quoted "R" srv (fun _ => 0) w
  = (Ok (rooms_snapshot (JList [room "A" "Office"]) (JStr "A") 1), w)
  /\ py_getitem (rooms_snapshot (JList [room "A" "Office"]) (JStr "A") 1) "room_id"
     = Raise (KeyError (JStr "room_id"))
  /\ trace w = [].
Proof.
  repeat split.
Qed.

(** A response with status 404 is returned as a record, not raised. *)
Lemma client_operation_results_witness :
  let srv := scripted [Response 404 (Some (JStr "no such room"))] in
  let w := mkState (JStr "T") (Some 3600000000) (JList [room "A" "Office"])
                   (JStr "A") [] 0 in
  exists w2,
    send_message quoted "R" srv (fun _ => 0) (JStr "hi") JNull w
    = (Ok (JDict [("status", JInt 404); ("data", JStr "no such room");
                  ("room_id", JStr "A")]), w2).
Proof.
  intros srv w.
  destruct (client_operation_results ascii_lower quoted "R" srv (fun _ => 0) w)
    as (Hmessage & _).
  apply (Hmessage (JStr "hi") JNull
                  (snd (ensure_valid_token "R" srv (fun _ => 0) w))
                  404 (JStr "no such room")); reflexivity.
Defined.

(** C7, at the failing input: with the rooms [Kitchen Assistant] and
    [エモちゃんの部屋] and the room name "garage", the two motion tools
    answer with a text that names no room, while the message tool lists
    the room names. *)
Theorem motion_room_not_found_omits_names :
  let srv := scripted [token_reply 3600;
                       Response 200 (Some (JList [room "K1" "Kitchen Assistant";
                                                  room "A" "エモちゃんの部屋"]))] in
  let run := call_tool ascii_lower quoted plain_dumps plain_message "R" srv
                       (fun _ => 0) JNull JNull in
  let motion_text :=
    fst (run "bocco_send_motion"
             [("motion_name", JStr "head_shake"); ("room_name", JStr "garage")]
             start) in
  let custom_text :=
    fst (run "bocco_custom_motion"
             [("motion_json", JDict []); ("room_name", JStr "garage")]
             start) in
  let message_text :=
    fst (run "bocco_send_message"
             [("message", JStr "hi"); ("room_name", JStr "garage")]
             start) in
  motion_text = "エラー: 部屋「garage」が見つかりません"
  /\ custom_text = "エラー: 部屋「garage」が見つかりません"
  /\ contains "Kitchen Assistant" motion_text = false
  /\ contains "エモちゃんの部屋" motion_text = false
  /\ message_text
     = "エラー: 部屋「garage」が見つかりません。利用可能な部屋: ['Kitchen Assistant', 'エモちゃんの部屋']"
  /\ contains "Kitchen Assistant" message_text = true
  /\ contains "エモちゃんの部屋" message_text = true.
Proof.
  vm_compute. repeat split.
Qed.

(** C8, the claim as stated fails: a refresh that fails over a stored
    token leaves that token and its expiry in place. Called on a token
    that is still valid, the next [ensure_valid_token] accepts it without
    any request; and a refresh that [ensure_valid_token] attempts 200
    seconds before the expiry leaves the token stored and unexpired. *)
Lemma failed_refresh_keeps_valid_token :
  let srv := scripted [Response 500 None] in
  let w := mkState (JStr "T") (Some 3600000000) (JList []) JNull [] 0 in
  let w' := snd (get_access_token "R" srv (fun _ => 0) w) in
  let late := snd (ensure_valid_token "R" srv (fun _ => 3400000000) w) in
  (get_access_token "R" srv (fun _ => 0) w = (Ok false, w')
   /\ access_token w' = JStr "T"
   /\ token_expires_at w' = Some 3600000000
   /\ needs_refresh w' 0 = false
   /\ ensure_valid_token "R" srv (fun _ => 0) w' = (Ok true, tick w')
   /\ trace (tick w') = trace w')
  /\ (ensure_valid_token "R" srv (fun _ => 3400000000) w = (Ok false, late)
      /\ trace late = [refresh_request "R"]
      /\ access_token late = JStr "T"
      /\ token_expires_at late = Some 3600000000
      /\ 3400000000 < 3600000000).
Proof.
  repeat split.
Qed.

(** A refresh answered with status 500 fails and leaves a new client
    without token and expiry. *)
Lemma get_access_token_outcomes_witness :
  let srv := scripted [Response 500 None] in
  exists w',
    get_access_token "R" srv (fun _ => 0) start = (Ok false, w')
    /\ access_token w' = JNull
    /\ token_expires_at w' = None.
Proof.
  intros srv.
  destruct (get_access_token_outcomes "R" srv (fun _ => 0) start)
    as (Hfail & _).
  destruct Hfail as (w' & Hg & Ha & He & _).
  - right. exists 500, None. split; [reflexivity|discriminate].
  - exists w'. split; [exact Hg|]. split; [exact Ha|exact He].
Defined.


(** The same record when the fetch succeeds with zero rooms. *)
Example get_rooms_info_zero_rooms :
  let srv := scripted [token_reply 3600; Response 200 (Some (JList []))] in
  fst (get_rooms_info ascii_lower quoted "R" srv (fun _ => 0) start)
  = Ok (rooms_snapshot (JList []) JNull 0)
  /\ fst (fetch_rooms ascii_lower quoted "R" srv (fun _ => 0) start) = Ok true
  /\ fst (fetch_rooms ascii_lower quoted "R" (fun _ => Response 500 None)
                      (fun _ => 0) start) = Ok false.
Proof.
  repeat split.
Qed.

(** An empty room name and an omitted one give the same run, and the
    message is posted to the default room. *)
Lemma empty_room_name_is_omitted_witness :
  let srv := scripted [token_reply 3600;
                       Response 200 (Some (JList [room "A" "Office";
                                                  room "K1" "Kitchen"]));
                       Response 200 (Some JNull)] in
  let run := call_tool ascii_lower quoted plain_dumps plain_message "R" srv
                       (fun _ => 0) JNull JNull in
  let arguments := [("message", JStr "hi"); ("room_name", JStr "")] in
  run "bocco_send_message" arguments start
  = run "bocco_send_message" [("message", JStr "hi")] start
  /\ map req_url (trace (snd (run "bocco_send_message" arguments start)))
     = ["https://platform-api.bocco.me/oauth/token/refresh";
        "https://platform-api.bocco.me/v1/rooms";
        "https://platform-api.bocco.me/v1/rooms/A/messages/text"]
  /\ fst (run "bocco_send_message" arguments start)
     = "メッセージ「hi」をOfficeに送信しました。" ++ nl ++ "ステータス: 200".
Proof.
  intros srv run arguments.
  destruct (empty_room_name_is_omitted ascii_lower quoted plain_dumps
              plain_message "R" srv (fun _ => 0) JNull JNull start
              "bocco_send_message" arguments [("message", JStr "hi")])
    as (Hsame & _ & _ & _ & Hmessage & _).
  - reflexivity.
  - reflexivity.
  - intros k Hk. simpl.
    destruct (String.eqb k "message"); [reflexivity|].
    destruct (String.eqb_spec k "room_name"); [contradiction|reflexivity].
  - split; [exact Hsame|].
    destruct (Hmessage
                (snd (initialize ascii_lower quoted "R" srv (fun _ => 0)
                        (new_client start)))
                (tick (snd (initialize ascii_lower quoted "R" srv (fun _ => 0)
                              (new_client start))))
                (JStr "hi") 200 JNull eq_refl eq_refl eq_refl eq_refl eq_refl)
      as (Htrace & Htext).
    unfold run. split.
    + rewrite Htrace. reflexivity.
    + rewrite Htext. reflexivity.
Defined.

(** ** Concrete runs of the further properties *)

Lemma get_access_token_bad_expires_in_witness :
  let srv := scripted [Response 200 (Some (JDict [("access_token", JStr "T");
                                                  ("expires_in", JStr "3600")]))] in
  exists w',
    get_access_token "R" srv (fun _ => 0) start = (Ok false, w')
    /\ access_token w' = JStr "T"
    /\ token_expires_at w' = None.
Proof.
  intros srv.
  apply (get_access_token_bad_expires_in "R" srv (fun _ => 0) start
           [("access_token", JStr "T"); ("expires_in", JStr "3600")]
           (JStr "T") TypeError); reflexivity.
Defined.

Lemma get_access_token_default_expiry_witness :
  let srv := scripted [Response 200 (Some (JDict [("access_token", JStr "T")]))] in
  exists w',
    get_access_token "R" srv (fun _ => 5) start = (Ok true, w')
    /\ access_token w' = JStr "T"
    /\ token_expires_at w' = Some 3600000005.
Proof.
  intros srv.
  apply (get_access_token_default_expiry "R" srv (fun _ => 5) start
           [("access_token", JStr "T")] (JStr "T")).
  - reflexivity.
  - reflexivity.
  - reflexivity.
  - unfold datetime_min. lia.
  - unfold datetime_max. lia.
Defined.

Lemma fetch_rooms_rejected_response_witness :
  let srv := scripted [Response 503 None] in
  let w := mkState (JStr "T") (Some 3600000000) (JList [room "A" "Office"])
                   (JStr "A") [] 0 in
  exists w',
    fetch_rooms ascii_lower quoted "R" srv (fun _ => 0) w = (Ok false, w')
    /\ rooms w' = JList [room "A" "Office"]
    /\ default_room_id w' = JStr "A".
Proof.
  intros srv w.
  apply (fetch_rooms_rejected_response ascii_lower quoted "R" srv (fun _ => 0)
           w (tick w)).
  - reflexivity.
  - right. left. exists 503, None. split; [reflexivity|discriminate].
Defined.

Lemma fetch_rooms_partial_update_witness :
  let listing := [JDict [("name", JStr "emo room")]] in
  let srv := scripted [Response 200 (Some (JList listing))] in
  let w := mkState (JStr "T") (Some 3600000000) (JList []) JNull [] 0 in
  exists w',
    fetch_rooms ascii_lower quoted "R" srv (fun _ => 0) w = (Ok false, w')
    /\ rooms w' = JList listing
    /\ default_room_id w' = JNull.
Proof.
  intros listing srv w.
  apply (fetch_rooms_partial_update ascii_lower quoted "R" srv (fun _ => 0)
           w (tick w) (JList listing) listing (KeyError (JStr "uuid")));
    reflexivity.
Defined.


Lemma explicit_room_is_targeted_witness :
  let srv := scripted [Response 200 (Some JNull)] in
  let w := mkState (JStr "T") (Some 3600000000)
                   (JList [room "A" "Office"; room "B" "Kitchen"])
                   (JStr "A") [] 0 in
  let run := send_message quoted "R" srv (fun _ => 0) (JStr "hi") (JStr "B") w in
  exists v, fst run = Ok v /\ py_getitem v "room_id" = Ok (JStr "B").
Proof.
  intros srv w run.
  exists (JDict [("status", JInt 200); ("data", JNull); ("room_id", JStr "B")]).
  split; [reflexivity|].
  destruct (explicit_room_is_targeted quoted "R" srv (fun _ => 0) w (JStr "B")
              eq_refl) as (Hmessage & _).
  apply (Hmessage (JStr "hi") _ (snd run)). reflexivity.
Defined.


Lemma post_failures_propagate_witness :
  let srv := scripted [TransportFailure] in
  let w := mkState (JStr "T") (Some 3600000000) (JList [room "A" "Office"])
                   (JStr "A") [] 0 in
  exists w',
    send_message quoted "R" srv (fun _ => 0) (JStr "hi") JNull w
    = (Raise ClientError, w').
Proof.
  intros srv w.
  destruct (post_failures_propagate quoted "R" srv (fun _ => 0) w (tick w) JNull
              eq_refl eq_refl) as (Hmessage & _).
  destruct (Hmessage (JStr "hi")) as (Htransport & _).
  apply Htransport. reflexivity.
Defined.

Lemma call_tool_token_failure_witness :
  let srv := scripted [TransportFailure] in
  fst (call_tool ascii_lower quoted plain_dumps plain_message "R" srv
                 (fun _ => 0) JNull JNull "bocco_get_rooms" [] start)
  = "エラーが発生しました: アクセストークンの取得に失敗しました".
Proof.
  intros srv.
  rewrite (call_tool_token_failure ascii_lower quoted plain_dumps plain_message
             "R" srv (fun _ => 0) JNull JNull start "bocco_get_rooms" []).
  - reflexivity.
  - left. reflexivity.
Defined.

Lemma call_tool_unknown_tool_witness :
  let srv := scripted [token_reply 3600; Response 200 (Some (JList []))] in
  fst (call_tool ascii_lower quoted plain_dumps plain_message "R" srv
                 (fun _ => 0) JNull JNull "bocco_dance" [] start)
  = "エラー: 不明なツール 'bocco_dance'".
Proof.
  intros srv.
  rewrite (call_tool_unknown_tool ascii_lower quoted plain_dumps plain_message
             "R" srv (fun _ => 0) JNull JNull start "bocco_dance" []).
  - reflexivity.
  - simpl. intros [H | [H | [H | [H | [H | []]]]]]; discriminate H.
Defined.

Lemma call_tool_missing_argument_witness :
  let srv := scripted [token_reply 3600; Response 200 (Some (JList []))] in
  fst (call_tool ascii_lower quoted plain_dumps plain_message "R" srv
                 (fun _ => 0) JNull JNull
                 "bocco_send_message" [("room_name", JStr "A")] start)
  = "エラーが発生しました: 'message'".
Proof.
  intros srv.
  pose proof (call_tool_missing_argument ascii_lower quoted plain_dumps
                plain_message "R" srv (fun _ => 0) JNull JNull start
                (nth 0 list_tools (mkTool "" "" JNull)) "message"
                [("room_name", JStr "A")]
                (or_introl eq_refl) (or_introl eq_refl) eq_refl) as H.
  change (tool_name (nth 0 list_tools (mkTool "" "" JNull)))
    with "bocco_send_message" in H.
  rewrite H. reflexivity.
Defined.

Lemma schema_motions_are_catalog_keys_witness :
  not_in_catalog JNull JNull (JStr "simple_nod") = Ok false.
Proof.
  apply (proj1 (schema_motions_are_catalog_keys JNull JNull
                  (nth 1 list_tools (mkTool "" "" JNull)) "simple_nod"
                  (or_intror (or_introl eq_refl)) eq_refl)).
  right. left. reflexivity.
Defined.

Lemma room_tools_send_no_post_witness :
  let srv := scripted [token_reply 3600; Response 200 (Some (JList []))] in
  exists added,
    trace (snd (call_tool ascii_lower quoted plain_dumps plain_message "R" srv
                          (fun _ => 0) JNull JNull "bocco_get_rooms" [] start))
    = (trace start ++ added)%list
    /\ Forall (is_init_request quoted "R") added.
Proof.
  intros srv.
  destruct (room_tools_send_no_post ascii_lower quoted plain_dumps plain_message
              "R" srv (fun _ => 0) JNull JNull start "bocco_get_rooms" []
              (or_introl eq_refl)) as (added & Ht & Hp & _).
  exists added. split; [exact Ht|exact Hp].
Defined.

Lemma refreshed_token_validity_witness :
  let srv := scripted [token_reply 3600] in
  exists w1,
    get_access_token "R" srv (fun _ => 0) start = (Ok true, w1)
    /\ ensure_valid_token "R" srv (fun _ => 0) w1 = (Ok true, tick w1).
Proof.
  intros srv.
  destruct (refreshed_token_validity "R" srv (fun _ => 0) start
              [("access_token", JStr "T"); ("expires_in", JInt 3600)]
              (JStr "T") 3600 eq_refl eq_refl eq_refl eq_refl)
    as (w1 & Hg & Hfresh & _).
  - unfold datetime_min, datetime_max. lia.
  - unfold datetime_min, five_minutes. lia.
  - unfold datetime_max. lia.
  - exists w1. split; [exact Hg|]. apply Hfresh.
    unfold five_minutes. lia.
Defined.

Lemma used_room_name_reports_name_witness :
  let w := mkState (JStr "T") (Some 3600000000)
                   (JList [room "A" "Office"; room "K1" "Kitchen Assistant"])
                   (JStr "A") [] 0 in
  used_room_name (JDict [("status", JInt 200); ("data", JNull);
                         ("room_id", JStr "K1")]) w
  = (Ok (JStr "Kitchen Assistant"), w).
Proof.
  intros w.
  destruct (used_room_name_reports_name w
              [room "A" "Office"; room "K1" "Kitchen Assistant"]
              [("A", "Office"); ("K1", "Kitchen Assistant")]
              "K1" (JInt 200) JNull eq_refl eq_refl) as (Hfound & _).
  - constructor.
    + simpl. intros [H | []]. discriminate H.
    + constructor; [intros []|constructor].
  - discriminate.
  - apply Hfound. right. left. reflexivity.
Defined.


Lemma resolution_ignores_query_case_witness :
  let items := [room "A" "Office"; room "K1" "Kitchen Assistant"] in
  match_room ascii_lower (JStr "KITCHEN") items
  = match_room ascii_lower (JStr "kitchen") items.
Proof.
  intros items.
  apply (resolution_ignores_query_case ascii_lower "KITCHEN" "kitchen" items).
  reflexivity.
Defined.

Lemma send_message_tool_reports_witness :
  let srv := scripted [Response 200 (Some JNull)] in
  let w := mkState (JStr "T") (Some 3600000000)
                   (JList [room "A" "Office"; room "K1" "Kitchen Assistant"])
                   (JStr "A") [] 0 in
  fst (dispatch ascii_lower quoted plain_dumps plain_message "R" srv (fun _ => 0)
                JNull JNull "bocco_send_message"
                [("message", JStr "hi"); ("room_name", JStr "kitchen")] w)
  = Ok ("メッセージ「hi」をKitchen Assistantに送信しました。" ++ nl
        ++ "ステータス: 200").
Proof.
  intros srv w.
  assert (Hquery : "kitchen" <> "") by discriminate.
  assert (Huuid : "K1" <> "") by discriminate.
  assert (Hdistinct : NoDup (map fst [("A", "Office"); ("K1", "Kitchen Assistant")])).
  { constructor.
    - simpl. intros [H | []]. discriminate H.
    - constructor; [intros []|constructor]. }
  assert (Hin : In ("K1", "Kitchen Assistant")
                   [("A", "Office"); ("K1", "Kitchen Assistant")]).
  { right. left. reflexivity. }
  destruct (send_message_tool_reports ascii_lower quoted plain_dumps plain_message
              "R" srv (fun _ => 0) JNull JNull w (tick w)
              [("message", JStr "hi"); ("room_name", JStr "kitchen")]
              (JStr "hi") "kitchen"
              [room "A" "Office"; room "K1" "Kitchen Assistant"]
              [("A", "Office"); ("K1", "Kitchen Assistant")]
              "K1" "Kitchen Assistant" 200 JNull
              eq_refl eq_refl Hquery eq_refl eq_refl Hdistinct eq_refl Hin Huuid
              eq_refl eq_refl) as (w2 & Hrun).
  rewrite Hrun. reflexivity.
Defined.

Lemma unresolved_room_name_sends_nothing_witness :
  let w := mkState (JStr "T") (Some 3600000000)
                   (JList [room "A" "Office"; room "K1" "Kitchen Assistant"])
                   (JStr "A") [] 0 in
  dispatch ascii_lower quoted plain_dumps plain_message "R" (scripted [])
           (fun _ => 0) JNull JNull "bocco_send_message"
           [("message", JStr "hi"); ("room_name", JStr "garage")] w
  = (Ok "エラー: 部屋「garage」が見つかりません。利用可能な部屋: ['Office', 'Kitchen Assistant']",
     w).
Proof.
  intros w.
  destruct (unresolved_room_name_sends_nothing ascii_lower quoted plain_dumps
              plain_message "R" (scripted []) (fun _ => 0) JNull JNull w
              [("message", JStr "hi"); ("room_name", JStr "garage")]
              "garage"
              [room "A" "Office"; room "K1" "Kitchen Assistant"]
              [("A", "Office"); ("K1", "Kitchen Assistant")])
    as (Hmessage & _).
  - reflexivity.
  - discriminate.
  - reflexivity.
  - reflexivity.
  - intros r [<- | [<- | []]]; reflexivity.
  - exact (Hmessage (JStr "hi") eq_refl).
Defined.

(** A lifetime that carries the expiry beyond the range of [datetime]
    makes the refresh fail after the token has been stored. *)
Example get_access_token_expiry_out_of_range :
  let srv := scripted [token_reply 253402300800] in
  let w' := snd (get_access_token "R" srv (fun _ => 0) start) in
  get_access_token "R" srv (fun _ => 0) start = (Ok false, w')
  /\ access_token w' = JStr "T"
  /\ token_expires_at w' = None.
Proof.
  repeat split.
Qed.
